(** * Strava dashboard (streamlit_app.py): model and checked properties

    The script is one page-render pipeline: load the credentials file,
    refresh the OAuth token when it has expired, fetch the activity list and
    the latest run, derive a handful of statistics and hand them to the
    dashboard widgets.

    Conventions of the model.
    - Python floats are read as exact rationals ([Q]); a NaN (the mean of an
      empty pandas Series) is [None] in an [option Q]. A number shown
      through a format such as [:.2f] is kept as the number and the
      precision: the digits printed for a binary double are not modelled.
    - The network, the clock and the file system are explicit: the remote
      API is a record of functions from requests to replies, the config file
      is a field of the state, and every widget call and every HTTP request
      is appended to a trace.
    - An exception that nobody catches ends the run with [Raise]; [st.stop()]
      ends it with [Stop].
    - Inputs are typed as the services give them: a config file that exists
      parses to a table whose keys, when present, hold strings and an
      integer [expires_at]; every row of the activity list carries the
      columns [id], [type], [distance], [moving_time] and [average_speed];
      a field of the detail record is missing or holds a value of its
      type, and only [map] may also be [null]. A file that does not parse
      and rows without these columns are outside the model. *)

From Stdlib Require Import ZArith QArith Qminmax List String Ascii Bool Lia.
From Stdlib Require Import DecimalString.
Import ListNotations.

Local Open Scope Z_scope.

(* ------------------------------------------------------------------ *)
(** ** The part of Python's [datetime] the script uses *)

Module Datetime.

Record datetime := mk_datetime
  { year : Z; month : Z; day : Z;
    hour : Z; minute : Z; second : Z; microsecond : Z }.

Record timedelta := mk_timedelta
  { days : Z; seconds : Z; microseconds : Z }.

(** [_is_leap] *)
Definition is_leap (y : Z) : bool :=
  (y mod 4 =? 0) && (negb (y mod 100 =? 0) || (y mod 400 =? 0)).

(** [_days_before_year]: days before January 1st of year [y]. *)
Definition days_before_year (y : Z) : Z :=
  let y := y - 1 in
  y * 365 + y / 4 - y / 100 + y / 400.

(** [_DAYS_IN_MONTH] and [_days_in_month] *)
Definition days_in_month (y m : Z) : Z :=
  match m with
  | 2 => if is_leap y then 29 else 28
  | 4 | 6 | 9 | 11 => 30
  | _ => 31
  end.

(** [_DAYS_BEFORE_MONTH]: the table for a common year. *)
Definition DAYS_BEFORE_MONTH (m : Z) : Z :=
  match m with
  | 1 => 0   | 2 => 31  | 3 => 59  | 4 => 90
  | 5 => 120 | 6 => 151 | 7 => 181 | 8 => 212
  | 9 => 243 | 10 => 273 | 11 => 304 | 12 => 334
  | _ => 0
  end.

(** [_days_before_month] *)
Definition days_before_month (y m : Z) : Z :=
  DAYS_BEFORE_MONTH m + (if (2 <? m) && is_leap y then 1 else 0).

(** [datetime.toordinal] *)
Definition toordinal (d : datetime) : Z :=
  days_before_year (year d) + days_before_month (year d) (month d) + day d.

(** The constructor of [timedelta] normalises: microseconds into
    [0, 10^6), seconds into [0, 86400), the carries going to the days. *)
Definition normalize (d s us : Z) : timedelta :=
  let s1 := s + us / 1000000 in
  {| days := d + s1 / 86400;
     seconds := s1 mod 86400;
     microseconds := us mod 1000000 |}.

(** [datetime.__sub__] on two naive datetimes. *)
Definition sub (a b : datetime) : timedelta :=
  let secs1 := second a + minute a * 60 + hour a * 3600 in
  let secs2 := second b + minute b * 60 + hour b * 3600 in
  normalize (toordinal a - toordinal b) (secs1 - secs2)
            (microsecond a - microsecond b).

(** The values [datetime.now()] can return. *)
Definition valid (d : datetime) : bool :=
  (1 <=? year d) && (year d <=? 9999) &&
  (1 <=? month d) && (month d <=? 12) &&
  (1 <=? day d) && (day d <=? days_in_month (year d) (month d)) &&
  (0 <=? hour d) && (hour d <? 24) &&
  (0 <=? minute d) && (minute d <? 60) &&
  (0 <=? second d) && (second d <? 60) &&
  (0 <=? microsecond d) && (microsecond d <? 1000000).

End Datetime.

Import Datetime.

(* ------------------------------------------------------------------ *)
(** ** Year-to-date target *)

Definition target_km : Z := 2000.

(** [calculate_target_km], with [now] the value of [datetime.datetime.now()];
    the three calls of the source are taken to return the same instant. *)
Definition calculate_target_km (now : datetime) : Q :=
  let start_of_year := mk_datetime (year now) 1 1 0 0 0 0 in
  let end_of_year := mk_datetime (year now) 12 31 0 0 0 0 in
  let today := now in
  let days_between := days (sub end_of_year start_of_year) in
  let days_passed := days (sub today start_of_year) in
  let target_today :=
    ((inject_Z target_km / inject_Z days_between) * inject_Z days_passed)%Q in
  target_today.

(** Calendar quantities, by the month lengths, with no reference to times of day. *)
Fixpoint month_lengths_before (y : Z) (n : nat) : Z :=
  match n with
  | O => 0
  | S k => month_lengths_before y k + days_in_month y (Z.of_nat (S k))
  end.

(** Whole days between January 1st and the date of [d]. *)
Definition days_elapsed (d : datetime) : Z :=
  month_lengths_before (year d) (Z.to_nat (month d - 1)) + (day d - 1).

(** Number of days of the year, January 1st and December 31st both counted. *)
Definition days_in_year (y : Z) : Z := if is_leap y then 366 else 365.

(** The target as the specification words it: the annual target times the
    days elapsed, over the days in the year. *)
Definition spec_target_km (now : datetime) : Q :=
  (inject_Z target_km * inject_Z (days_elapsed now)
     / inject_Z (days_in_year (year now)))%Q.

(* ------------------------------------------------------------------ *)
(** ** Python values: truthiness, [max] and [dict.get] *)

Module Py.

(** Truth value of a float: zero is false. *)
Definition truthy (x : Q) : bool := negb (Qeq_bool x 0).

(** Truth value of an optional float ([None] is false). *)
Definition truthy_opt (x : option Q) : bool :=
  match x with
  | Some v => truthy v
  | None => false
  end.

(** Truth value of an optional string ([None] and [''] are false). *)
Definition truthy_str (x : option string) : bool :=
  match x with
  | Some EmptyString => false
  | Some _ => true
  | None => false
  end.

(** [max(0, x)]: the first argument unless the second is greater. *)
Definition max0 (x : Q) : Q := if Qlt_le_dec 0 x then x else 0%Q.

(** [dict.get(key, default)] on an optional field. *)
Definition get {A : Type} (field : option A) (default : A) : A :=
  match field with
  | Some v => v
  | None => default
  end.

(** [str(n)] for a natural number [n]. *)
Definition digits (n : Z) : string :=
  NilZero.string_of_uint (N.to_uint (Z.to_N n)).

End Py.

(* ------------------------------------------------------------------ *)
(** ** The pandas operations the script uses, on a column as a list *)

Module Pandas.

(** [Series.sum()] *)
Definition sum (col : list Q) : Q := fold_right Qplus 0%Q col.

(** [Series.mean()]: NaN on an empty column. *)
Definition mean (col : list Q) : option Q :=
  match col with
  | [] => None
  | _ => Some (sum col / inject_Z (Z.of_nat (List.length col)))%Q
  end.

(** [df.iloc[0]]: the first row, [None] standing for the IndexError. *)
Definition iloc0 {A : Type} (rows : list A) : option A :=
  match rows with
  | [] => None
  | r :: _ => Some r
  end.

End Pandas.

(* ------------------------------------------------------------------ *)
(** ** Data model *)

(** The configuration dict read from config.toml. A key may be missing. *)
Record Config := mk_config
  { client_id : option string;
    client_secret : option string;
    cfg_refresh_token : option string;
    access_token : option string;
    expires_at : option Z }.

(** A row of the activity list, with the columns the script indexes. *)
Record Summary := mk_summary
  { s_id : Z;
    s_type : string;
    s_distance : Q;
    s_moving_time : Q;
    s_average_speed : Q }.

(** The nested [map] object of an activity. *)
Record PolylineMap := mk_map { polyline : option string }.

(** What sits under the [map] key when it is there: JSON [null] or an
    object. *)
Inductive json_map : Type :=
| MapNull
| MapObject (m : PolylineMap).

(** The detail record of one activity; every field is read with [.get]. *)
Record Activity := mk_activity
  { a_name : option string;
    a_distance : option Q;
    a_moving_time : option Q;
    a_elapsed_time : option Q;
    a_average_speed : option Q;
    a_total_elevation_gain : option Q;
    a_map : option json_map }.

(** The JSON object the token endpoint answers with. *)
Record TokenJson := mk_token_json
  { js_access_token : option string;
    js_refresh_token : option string;
    js_expires_at : option Z }.

(** The form posted to the token endpoint. *)
Record TokenForm := mk_token_form
  { f_client_id : string;
    f_client_secret : string;
    f_refresh_token : string;
    f_grant_type : string }.

(** A route point: (latitude, longitude). *)
Definition RoutePoint : Type := (Q * Q)%type.

(* ------------------------------------------------------------------ *)
(** ** The [requests] library and the remote API *)

Module Requests.

(** A response: its status code, and its body decoded as JSON ([None]
    when the body is not the JSON expected, so that [.json()] raises). *)
Record response (A : Type) : Type := mk_response
  { status_code : Z; body : option A }.

Arguments mk_response {A} status_code body.
Arguments status_code {A} r.
Arguments body {A} r.

(** What a request comes back with: a response, or [None] when no
    response arrives and the call raises ConnectionError. *)
Definition reply (A : Type) : Type := option (response A).

(** [Response.raise_for_status] raises for the client and server errors,
    that is for a status code in [400, 600), and for no other. *)
Definition raises_for_status (code : Z) : bool :=
  (400 <=? code) && (code <? 600).

End Requests.

Import Requests.

(** The three endpoints, as functions of what the script sends. *)
Record Remote := mk_remote
  { oauth_token : TokenForm -> reply TokenJson;
    athlete_activities :
      string (* bearer *) -> Z (* per_page *) -> Z (* page *) -> Z (* after *)
      -> reply (list Summary);
    activities_id : Z -> string (* bearer *) -> reply Activity }.

(** Everything outside the script that one page load reads. *)
Record Env := mk_env
  { time_time : Q;                 (* time.time() *)
    datetime_now : datetime;       (* datetime.datetime.now() *)
    api : Remote;
    polyline_decode : string -> option (list RoutePoint) }.

(* ------------------------------------------------------------------ *)
(** ** Effects: exceptions, [st.stop()], the trace and the config file *)

Inductive exn : Type :=
| FileNotFoundError
| KeyError (key : string)
| IndexError
| ConnectionError
| HTTPError (code : Z)
| JSONDecodeError
| AttributeError
| DecodeError.

Record ChartRow := mk_row { label : string; segment : string; kms : Q }.

(** What a metric shows: a number through [f'{value:.{prec}f}'] ([None]
    for NaN), or a plain text. *)
Inductive shown : Type :=
| FixedPoint (prec : nat) (value : option Q)
| Text (s : string).

(** What the page does, in order: widget calls, HTTP requests and calls
    of the polyline decoder. *)
Inductive event : Type :=
| StSetPageConfig (page_title layout : string)
| StTitle (text : string)
| StError (text : string) (cause : option exn)
| StSpinner (text : string)
| StSuccess (text : string)
| StInfo (text : string)
| StSubheader (text : string)
| StColumns (n : Z)
| StMetric (name : string) (value : shown)
| StAltairChart (rows : list ChartRow)
| StMap (coords : list RoutePoint)
| StPydeckChart (path : list RoutePoint) (latitude longitude : option Q)
| StExpander (text : string)
| StJson (activity : Activity)
| PostToken (form : TokenForm)
| GetActivities (bearer : string) (per_page page after : Z)
| GetActivity (activity_id : Z) (bearer : string)
| PolylineDecode (route_poly : string).

(** The mutable world of one run: the dict named [cfg], the file
    config.toml ([None] when it does not exist) and the trace so far. *)
Record state := mk_state
  { cfg : Config;
    config_toml : option Config;
    trace : list event }.

(** How a computation ends: with a value, by [st.stop()], or by an
    exception on its way up. *)
Inductive result (A : Type) : Type :=
| Ret (a : A)
| Stop
| Raise (e : exn).

Arguments Ret {A} a.
Arguments Stop {A}.
Arguments Raise {A} e.

Definition M (A : Type) : Type := state -> result A * state.

Definition ret {A : Type} (a : A) : M A := fun s => (Ret a, s).

Definition bind {A B : Type} (m : M A) (k : A -> M B) : M B :=
  fun s =>
    match m s with
    | (Ret a, s') => k a s'
    | (Stop, s') => (Stop, s')
    | (Raise e, s') => (Raise e, s')
    end.

Declare Scope py_scope.
Delimit Scope py_scope with py.

Notation "x <- m ;; k" := (bind m (fun x => k))
  (at level 100, m at next level, right associativity) : py_scope.
Notation "m ;; k" := (bind m (fun _ => k))
  (at level 100, right associativity) : py_scope.

Local Open Scope py_scope.

Definition raise {A : Type} (e : exn) : M A := fun s => (Raise e, s).

(** [st.stop()] *)
Definition st_stop {A : Type} : M A := fun s => (Stop, s).

(** [try: body / except Exception as e: handler e]. [st.stop()] is not an
    [Exception] and passes through. *)
Definition try_except {A : Type} (body : M A) (handler : exn -> M A) : M A :=
  fun s =>
    match body s with
    | (Raise e, s') => handler e s'
    | other => other
    end.

Definition get_cfg : M Config := fun s => (Ret (cfg s), s).

Definition set_cfg (c : Config) : M unit :=
  fun s => (Ret tt, mk_state c (config_toml s) (trace s)).

(** [d[key]]: KeyError when the key is missing. *)
Definition item {A : Type} (key : string) (field : option A) : M A :=
  match field with
  | Some v => ret v
  | None => raise (KeyError key)
  end.

(** [requests.post] and [requests.get] return the response or raise. *)
Definition arrive {A : Type} (r : reply A) : M (response A) :=
  match r with
  | Some resp => ret resp
  | None => raise ConnectionError
  end.

(** [r.raise_for_status()] *)
Definition raise_for_status {A : Type} (r : response A) : M unit :=
  if raises_for_status (status_code r) then raise (HTTPError (status_code r))
  else ret tt.

(** [r.json()] *)
Definition json {A : Type} (r : response A) : M A :=
  match body r with
  | Some v => ret v
  | None => raise JSONDecodeError
  end.

(* ------------------------------------------------------------------ *)
(** ** The script *)

Local Open Scope string_scope.

Definition tell (es : list event) : M unit :=
  fun s => (Ret tt, mk_state (cfg s) (config_toml s) (trace s ++ es)).

Definition update_cfg (f : Config -> Config) : M unit :=
  fun s => (Ret tt, mk_state (f (cfg s)) (config_toml s) (trace s)).

(** [cfg['access_token'] = v], [cfg['refresh_token'] = v], [cfg['expires_at'] = v] *)
Definition set_access_token (v : string) (c : Config) : Config :=
  mk_config (client_id c) (client_secret c) (cfg_refresh_token c)
            (Some v) (expires_at c).

Definition set_refresh_token (v : string) (c : Config) : Config :=
  mk_config (client_id c) (client_secret c) (Some v)
            (access_token c) (expires_at c).

Definition set_expires_at (v : Z) (c : Config) : Config :=
  mk_config (client_id c) (client_secret c) (cfg_refresh_token c)
            (access_token c) (Some v).

(** [m/s -> km/h] *)
Definition kmh (v : Q) : Q := (v * (36 # 10))%Q.

(** Lines 117-122: the year-to-date metrics over the rows of type Run. *)
Definition ytd_stats (running_activities : list Summary) : list event :=
  let running_distance_year_km :=
    (Pandas.sum (map s_distance running_activities) / 1000)%Q in
  [ StSubheader "Year-to-date Running stats";
    StColumns 4;
    StMetric "Distance (km)" (FixedPoint 2 (Some running_distance_year_km));
    StMetric "Moving time (min)"
      (FixedPoint 0
         (Some (Pandas.sum (map s_moving_time running_activities) / 60)%Q));
    StMetric "Avg pace (km/h)"
      (FixedPoint 2
         (option_map kmh
            (Pandas.mean (map s_average_speed running_activities))));
    StMetric "Total Activities"
      (Text (Py.digits (Z.of_nat (List.length running_activities)))) ].

(** Line 111: [avg_kmh = (avg_pace * 3.6) if avg_pace else None] *)
Definition avg_kmh (activity : Activity) : option Q :=
  let avg_pace := a_average_speed activity in
  if Py.truthy_opt avg_pace then option_map kmh avg_pace else None.

(** Line 130: what the average-speed metric shows. *)
Definition avg_speed_text (activity : Activity) : shown :=
  if Py.truthy_opt (avg_kmh activity)
  then FixedPoint 2 (avg_kmh activity)
  else Text "N/A".

(** Lines 107-112 and 124-131: the metrics of the latest run. *)
Definition latest_summary (activity : Activity) : list event :=
  let distance_km := (Py.get (a_distance activity) 0 / 1000)%Q in
  let moving_min := (Py.get (a_moving_time activity) 0 / 60)%Q in
  let elev := Py.get (a_total_elevation_gain activity) 0%Q in
  [ StSubheader "Latest Run Summary";
    StSubheader (Py.get (a_name activity) "Activity");
    StColumns 4;
    StMetric "Distance (km)" (FixedPoint 2 (Some distance_km));
    StMetric "Moving time (min)" (FixedPoint 0 (Some moving_min));
    StMetric "Avg speed (km/h)" (avg_speed_text activity);
    StMetric "Elevation (m)" (FixedPoint 0 (Some elev)) ].

(** Lines 133-144: the two rows of the stacked bar. *)
Definition target_rows (current_target_km running_distance_year_km : Q)
  : list ChartRow :=
  [ mk_row "YTD" "Actual" running_distance_year_km;
    mk_row "YTD" "Target"
           (Py.max0 (current_target_km - running_distance_year_km)%Q) ].

Section Script.

Variable env : Env.

(** [load_config]: the parsed file, FileNotFoundError when there is none. *)
Definition load_config : M Config :=
  fun s =>
    match config_toml s with
    | Some c => (Ret c, s)
    | None => (Raise FileNotFoundError, s)
    end.

(** [save_config]: the file is rewritten wholesale. *)
Definition save_config (c : Config) : M unit :=
  fun s => (Ret tt, mk_state (cfg s) (Some c) (trace s)).

(** [refresh_token(cfg)], on the dict named [cfg], which it mutates in
    place and returns. *)
Definition refresh_token : M Config :=
  c <- get_cfg ;;
  cid <- item "client_id" (client_id c) ;;
  secret <- item "client_secret" (client_secret c) ;;
  rt <- item "refresh_token" (cfg_refresh_token c) ;;
  let form := mk_token_form cid secret rt "refresh_token" in
  tell [PostToken form] ;;
  r <- arrive (oauth_token (api env) form) ;;
  raise_for_status r ;;
  js <- json r ;;
  v <- item "access_token" (js_access_token js) ;;
  update_cfg (set_access_token v) ;;
  v <- item "refresh_token" (js_refresh_token js) ;;
  update_cfg (set_refresh_token v) ;;
  v <- item "expires_at" (js_expires_at js) ;;
  update_cfg (set_expires_at v) ;;
  c <- get_cfg ;;
  save_config c ;;
  get_cfg.

(** [get_activities(access_token, per_page, page, after)] *)
Definition get_activities (token : string) (per_page page after : Z)
  : M (list Summary) :=
  tell [GetActivities token per_page page after] ;;
  r <- arrive (athlete_activities (api env) token per_page page after) ;;
  raise_for_status r ;;
  json r.

(** [get_activity(activity_id, access_token)] *)
Definition get_activity (activity_id : Z) (token : string) : M Activity :=
  tell [GetActivity activity_id token] ;;
  r <- arrive (activities_id (api env) activity_id token) ;;
  raise_for_status r ;;
  json r.

(** [polyline.decode(route_poly)]: the call is recorded; a string the
    decoder rejects makes it raise. *)
Definition decode (route_poly : string) : M (list RoutePoint) :=
  tell [PolylineDecode route_poly] ;;
  match polyline_decode env route_poly with
  | Some coords => ret coords
  | None => raise DecodeError
  end.

(** Line 146: [activity.get('map', {}).get('polyline')]. A missing key
    gives the empty dict; a [null] under the key has no [get]. *)
Definition get_route_poly (activity : Activity) : M (option string) :=
  match Py.get (a_map activity) (MapObject (mk_map None)) with
  | MapObject m => ret (polyline m)
  | MapNull => raise AttributeError
  end.

(** Lines 146-166: the route, or the notice that there is none. *)
Definition route_section (activity : Activity) : M unit :=
  route_poly <- get_route_poly activity ;;
  if Py.truthy_str route_poly then
    coords <- decode (Py.get route_poly "") ;;
    tell [ StSubheader "Route";
           StMap coords;
           StPydeckChart coords
             (Pandas.mean (map fst coords)) (Pandas.mean (map snd coords)) ]
  else
    tell [ StInfo "No GPS route (polyline) available for this activity." ].

(** Lines 103-144: the metrics and the chart. [distance_year_km] and
    [elapsed_min] of the source are computed and never shown. *)
Definition stats_section (running_activities : list Summary)
           (activity : Activity) : list event :=
  let current_target_km := calculate_target_km (datetime_now env) in
  let running_distance_year_km :=
    (Pandas.sum (map s_distance running_activities) / 1000)%Q in
  ytd_stats running_activities
  ++ latest_summary activity
  ++ [ StAltairChart
         (target_rows current_target_km running_distance_year_km) ].

(** Lines 168-169 *)
Definition raw_section (activity : Activity) : list event :=
  [ StExpander "Raw activity JSON"; StJson activity ].

(** Lines 72-76 *)
Definition load_phase : M unit :=
  try_except (c <- load_config ;; set_cfg c)
    (fun e =>
       match e with
       | FileNotFoundError =>
           tell [StError "config.yml not found in workspace root." None] ;;
           st_stop
       | _ => raise e
       end).

(** Line 78: [cfg.get('expires_at', 0) < time.time()] *)
Definition token_is_stale (c : Config) : bool :=
  if Qlt_le_dec (inject_Z (Py.get (expires_at c) 0)) (time_time env)
  then true else false.

(** Lines 78-85 *)
Definition token_phase : M unit :=
  c <- get_cfg ;;
  if token_is_stale c then
    tell [StSpinner "Refreshing access token..."] ;;
    try_except
      (refresh_token ;; tell [StSuccess "Token refreshed"])
      (fun e => tell [StError "Token refresh failed: " (Some e)] ;; st_stop)
  else ret tt.

(** Lines 87-96 *)
Definition fetch_phase : M (list Summary) :=
  activities <-
    try_except
      (c <- get_cfg ;;
       token <- item "access_token" (access_token c) ;;
       get_activities token 30 1 1767225600)
      (fun e =>
         tell [StError "Failed to fetch activities: " (Some e)] ;; st_stop) ;;
  match activities with
  | [] => tell [StInfo "No activities found."] ;; st_stop
  | _ => ret activities
  end.

(** Line 99: [activities_df[activities_df['type'] == 'Run']] *)
Definition is_run (a : Summary) : bool := String.eqb (s_type a) "Run".

(** Lines 99-101 *)
Definition latest_phase (running_activities : list Summary) : M Activity :=
  latest <-
    match Pandas.iloc0 running_activities with
    | Some row => ret row
    | None => raise IndexError
    end ;;
  c <- get_cfg ;;
  token <- item "access_token" (access_token c) ;;
  get_activity (s_id latest) token.

(** [main] *)
Definition main : M unit :=
  tell [ StSetPageConfig "Strava — Last Activity" "wide";
         StTitle "Strava — Last Activity" ] ;;
  load_phase ;;
  token_phase ;;
  activities <- fetch_phase ;;
  let running_activities := filter is_run activities in
  activity <- latest_phase running_activities ;;
  tell (stats_section running_activities activity) ;;
  route_section activity ;;
  tell (raw_section activity).

(** One page load, from a config file and an empty trace; before
    [load_config] returns, the name [cfg] is bound to nothing, here the
    dict without keys. *)
Definition page_load (file : option Config) : result unit * state :=
  main (mk_state (mk_config None None None None None) file []).

End Script.

(* ------------------------------------------------------------------ *)
(** ** Sample data used by the concrete checks below *)

Module Sample.

Definition config (expiry : Z) : Config :=
  mk_config (Some "12345") (Some "secret") (Some "refresh-0")
            (Some "access-0") (Some expiry).

Definition run_5k : Summary := mk_summary 11 "Run" 5000 1800 (3 # 1).
Definition run_10k : Summary := mk_summary 12 "Run" 10000 3600 (28 # 10).
Definition ride_20k : Summary := mk_summary 13 "Ride" 20000 3600 (6 # 1).

(** A manual entry: no speed, no map. *)
Definition manual_run : Activity :=
  mk_activity (Some "Morning Run") (Some 5000%Q) (Some 1800%Q)
              (Some 1900%Q) None (Some 12%Q) None.

(** A recorded run: 3 m/s, with a route. *)
Definition tracked_run : Activity :=
  mk_activity (Some "Evening Run") (Some 10000%Q) (Some 3400%Q)
              (Some 3600%Q) (Some (3 # 1)) (Some 85%Q)
              (Some (MapObject (mk_map (Some "_p~iF~ps|U_ulLnnqC")))).

Definition fresh_tokens : TokenJson :=
  mk_token_json (Some "access-1") (Some "refresh-1") (Some 5000).

(** An API that answers every request with the given status, the token
    endpoint with [fresh_tokens], the list endpoint with [rows]. *)
Definition remote (token_status : Z) (rows : list Summary) : Remote :=
  mk_remote
    (fun _ => Some (mk_response token_status (Some fresh_tokens)))
    (fun _ _ _ _ => Some (mk_response 200 (Some rows)))
    (fun _ _ => Some (mk_response 200 (Some manual_run))).

Definition noon_jan_2 : datetime := mk_datetime 2026 1 2 12 0 0 0.

Definition env (clock : Q) (token_status : Z) (rows : list Summary) : Env :=
  mk_env clock noon_jan_2 (remote token_status rows) (fun _ => Some []).

(** The same API with a chosen answer of the detail endpoint, and a
    decoder that knows one polyline: "_p~iF~ps|U_ulLnnqC" is the two points
    (38.5, -120.2) and (40.7, -120.95). *)
Definition remote_with (rows : list Summary) (activity : Activity) : Remote :=
  mk_remote
    (fun _ => Some (mk_response 200 (Some fresh_tokens)))
    (fun _ _ _ _ => Some (mk_response 200 (Some rows)))
    (fun _ _ => Some (mk_response 200 (Some activity))).

Definition decoder (p : string) : option (list RoutePoint) :=
  if String.eqb p "_p~iF~ps|U_ulLnnqC"
  then Some [ (385 # 10, - (1202 # 10))%Q; (407 # 10, - (12095 # 100))%Q ]
  else None.

Definition env_with (now : datetime) (rows : list Summary)
           (activity : Activity) : Env :=
  mk_env 50 now (remote_with rows activity) decoder.

Definition short_run : Summary := mk_summary 15 "Run" 200000 60000 (3 # 1).


(** An activity with no field at all. *)
Definition bare_run : Activity :=
  mk_activity None None None None None None None.

(** 2 July 2026, when half of the 364 days have passed. *)
Definition morning_jul_2 : datetime := mk_datetime 2026 7 2 9 0 0 0.

Definition long_run : Summary := mk_summary 14 "Run" 1200000 360000 (3 # 1).

End Sample.

(* ------------------------------------------------------------------ *)
(** ** Reading a trace *)

(** The requests that carry the bearer token. *)
Definition is_authenticated_call (e : event) : bool :=
  match e with
  | GetActivities _ _ _ _ | GetActivity _ _ => true
  | _ => false
  end.

(** The request to the token endpoint. *)
Definition is_token_request (e : event) : bool :=
  match e with
  | PostToken _ => true
  | _ => false
  end.

(** The spinner of line 79, shown exactly when the refresh branch is taken. *)
Definition is_refresh_spinner (e : event) : bool :=
  match e with
  | StSpinner _ => true
  | _ => false
  end.

(** The refresh branch was entered somewhere in the trace. *)
Definition refresh_invoked (tr : list event) : Prop :=
  existsb is_refresh_spinner tr = true.

(** Every authenticated call of the trace comes after the refresh branch
    was entered and after a request to the token endpoint. *)
Definition calls_follow_refresh (tr : list event) : Prop :=
  forall pre e post,
    tr = (pre ++ e :: post)%list ->
    is_authenticated_call e = true ->
    existsb is_refresh_spinner pre = true /\
    existsb is_token_request pre = true.

(** Neither the refresh branch nor the token endpoint appears. *)
Definition no_refresh (tr : list event) : Prop :=
  existsb is_refresh_spinner tr = false /\
  existsb is_token_request tr = false.

(** The executable form of [calls_follow_refresh]: walk the trace,
    remembering whether the spinner and the token request were seen. *)
Fixpoint guarded (spinner posted : bool) (tr : list event) : bool :=
  match tr with
  | [] => true
  | e :: rest =>
      (if is_authenticated_call e then spinner && posted else true)
      && guarded (spinner || is_refresh_spinner e)
                 (posted || is_token_request e) rest
  end.

(** [part] is a run of consecutive events of [tr]. *)
Definition occurs_in (part tr : list event) : Prop :=
  exists pre post, tr = (pre ++ part ++ post)%list.

(** The aggregate statistics as the specification words them, over the
    rows of type "Run". *)
Definition total (field : Summary -> Q) (rows : list Summary) : Q :=
  fold_right (fun row acc => (field row + acc)%Q) 0%Q rows.

Definition runs_of (activities : list Summary) : list Summary :=
  filter (fun row => String.eqb (s_type row) "Run") activities.

Definition count (rows : list Summary) : Z := Z.of_nat (List.length rows).

(* ------------------------------------------------------------------ *)
(** ** More ways to read a trace *)

Definition is_list_request (e : event) : bool :=
  match e with
  | GetActivities _ _ _ _ => true
  | _ => false
  end.

Definition is_detail_request (e : event) : bool :=
  match e with
  | GetActivity _ _ => true
  | _ => false
  end.

(** [st.error] or [st.info]: a message to the user. *)
Definition is_message (e : event) : bool :=
  match e with
  | StError _ _ | StInfo _ => true
  | _ => false
  end.

Definition is_raw_json (e : event) : bool :=
  match e with
  | StJson _ => true
  | _ => false
  end.

Definition is_refresh_success (e : event) : bool :=
  match e with
  | StSuccess _ => true
  | _ => false
  end.

(** How many events of a kind the trace holds. *)
Definition count_events (kind : event -> bool) (tr : list event) : nat :=
  List.length (filter kind tr).

(** The last thing the page did. *)
Definition last_event (tr : list event) : option event :=
  match rev tr with
  | [] => None
  | e :: _ => Some e
  end.

(** An authenticated request carries [token] as its bearer; any other
    event carries nothing. *)
Definition carries (token : option string) (e : event) : Prop :=
  match e with
  | GetActivities bearer _ _ _ => token = Some bearer
  | GetActivity _ bearer => token = Some bearer
  | _ => True
  end.

(** The activity has no [map] key, or a map object without a polyline
    string (missing, [null] or empty). *)
Definition no_polyline (activity : Activity) : Prop :=
  a_map activity = None \/
  exists m, a_map activity = Some (MapObject m) /\
            Py.truthy_str (polyline m) = false.

Definition is_chart (e : event) : bool :=
  match e with
  | StAltairChart _ => true
  | _ => false
  end.

Definition is_decode (e : event) : bool :=
  match e with
  | PolylineDecode _ => true
  | _ => false
  end.

(** The widgets of the route: the map and the deck. *)
Definition is_route_drawing (e : event) : bool :=
  match e with
  | StMap _ | StPydeckChart _ _ _ => true
  | _ => false
  end.

(** Line 166 *)
Definition no_route_notice : event :=
  StInfo "No GPS route (polyline) available for this activity.".

(** Lines 148-164: the decoder call and what is drawn from its result. *)
Definition route_drawn (p : string) (coords : list RoutePoint) : list event :=
  [ PolylineDecode p; StSubheader "Route"; StMap coords;
    StPydeckChart coords (Pandas.mean (map fst coords))
                  (Pandas.mean (map snd coords)) ].

(** What can come before the dashboard: the page header, the refresh and
    the two requests. *)
Definition is_prelude (e : event) : bool :=
  match e with
  | StSetPageConfig _ _ | StTitle _ | StSpinner _ | StSuccess _
  | PostToken _ | GetActivities _ _ _ _ | GetActivity _ _ => true
  | _ => false
  end.

(** What can come after the metrics and the chart: the route or its
    notice, and the raw JSON. *)
Definition is_tail (e : event) : bool :=
  match e with
  | StInfo _ | PolylineDecode _ | StSubheader _ | StMap _
  | StPydeckChart _ _ _ | StExpander _ | StJson _ => true
  | _ => false
  end.

(** The detail request for [activity_id] with [token] is answered with
    [activity]. *)
Definition detail_answer (env : Env) (activity_id : Z) (token : string)
           (activity : Activity) : Prop :=
  exists r,
    activities_id (api env) activity_id token = Some r /\
    raises_for_status (status_code r) = false /\
    body r = Some activity.

(** The list request with [token] is answered with [activities]. *)
Definition list_answer (env : Env) (token : string)
           (activities : list Summary) : Prop :=
  exists r,
    athlete_activities (api env) token 30 1 1767225600 = Some r /\
    raises_for_status (status_code r) = false /\
    body r = Some activities.

(** [main] in two halves, for the proofs: lines 69-101, which end with the
    runs and the latest run at hand, and lines 103-169, which draw from
    them. [main_two_halves] below shows that [main] is the first followed
    by the second. *)
Definition fetch_latest (env : Env) : M (list Summary * Activity) :=
  tell [ StSetPageConfig "Strava — Last Activity" "wide";
         StTitle "Strava — Last Activity" ] ;;
  load_phase ;;
  token_phase env ;;
  activities <- fetch_phase env ;;
  let running_activities := filter is_run activities in
  activity <- latest_phase env running_activities ;;
  ret (running_activities, activity).

Definition draw (env : Env) (latest : list Summary * Activity) : M unit :=
  tell (stats_section env (fst latest) (snd latest)) ;;
  route_section env (snd latest) ;;
  tell (raw_section (snd latest)).

(** The form [refresh_token] posts for a config that has the three keys. *)
Definition refresh_form (cid secret rt : string) : TokenForm :=
  mk_token_form cid secret rt "refresh_token".

(** Earlier in the calendar year, or the same day. *)
Definition same_year_not_after (a b : datetime) : Prop :=
  year a = year b /\
  (month a < month b \/ (month a = month b /\ day a <= day b)).

Definition is_metric (e : event) : bool :=
  match e with
  | StMetric _ _ => true
  | _ => false
  end.

Definition is_error (e : event) : bool :=
  match e with
  | StError _ _ => true
  | _ => false
  end.

(** Seconds from 1970-01-01 00:00 to the midnight that starts a date. *)
Definition unix_midnight (y m d : Z) : Z :=
  86400 * (toordinal (mk_datetime y m d 0 0 0 0)
           - toordinal (mk_datetime 1970 1 1 0 0 0 0)).

(** A list request asks for the first page of 30 since the start of 2026. *)
Definition asks_first_page_of_2026 (e : event) : Prop :=
  match e with
  | GetActivities _ per_page page after =>
      per_page = 30 /\ page = 1 /\ after = unix_midnight 2026 1 1
  | _ => True
  end.

(* ================================================================== *)
(** * Properties *)

(* ------------------------------------------------------------------ *)
(** ** Calendar arithmetic *)

#[local] Arguments is_leap : simpl never.
#[local] Arguments days_before_year : simpl never.

Lemma normalize_days_small (d s us : Z) :
  0 <= s < 86400 -> 0 <= us < 1000000 -> days (normalize d s us) = d.
Proof.
  intros Hs Hus. unfold normalize; cbn [days].
  rewrite (Z.div_small us 1000000) by exact Hus.
  rewrite Z.add_0_r, (Z.div_small s 86400) by exact Hs.
  apply Z.add_0_r.
Qed.

Lemma days_between_year (y : Z) :
  days (sub (mk_datetime y 12 31 0 0 0 0) (mk_datetime y 1 1 0 0 0 0))
  = days_in_year y - 1.
Proof.
  unfold sub; cbn [year month day hour minute second microsecond].
  rewrite normalize_days_small by lia.
  unfold toordinal, days_before_month, days_in_year;
    cbn [year month day DAYS_BEFORE_MONTH Z.ltb Z.compare Pos.compare
         Pos.compare_cont andb].
  destruct (is_leap y); lia.
Qed.

Lemma days_elapsed_ordinal (d : datetime) :
  1 <= month d <= 12 ->
  days_elapsed d
  = toordinal d - toordinal (mk_datetime (year d) 1 1 0 0 0 0).
Proof.
  destruct d as [y m dd h mi sc us]; cbn [year month day]; intros Hm.
  unfold days_elapsed, toordinal, days_before_month; cbn [year month day].
  generalize (days_before_year y); intros k.
  assert (Hc : m = 1 \/ m = 2 \/ m = 3 \/ m = 4 \/ m = 5 \/ m = 6 \/
               m = 7 \/ m = 8 \/ m = 9 \/ m = 10 \/ m = 11 \/ m = 12)
    by lia.
  clear Hm.
  destruct Hc as [-> | [-> | [-> | [-> | [-> | [-> | [-> | [-> | [-> | [-> | [-> | ->]]]]]]]]]]];
    match goal with
    | |- context [Z.to_nat ?e] =>
        let v := eval vm_compute in (Z.to_nat e) in change (Z.to_nat e) with v
    end;
    cbn [month_lengths_before Z.of_nat Pos.of_succ_nat Pos.succ days_in_month
         DAYS_BEFORE_MONTH Z.ltb Z.compare Pos.compare Pos.compare_cont andb];
    destruct (is_leap y); lia.
Qed.

Lemma valid_fields (d : datetime) :
  valid d = true ->
  1 <= year d <= 9999 /\ 1 <= month d <= 12 /\
  1 <= day d <= days_in_month (year d) (month d) /\
  0 <= hour d < 24 /\ 0 <= minute d < 60 /\ 0 <= second d < 60 /\
  0 <= microsecond d < 1000000.
Proof.
  unfold valid. rewrite !andb_true_iff. lia.
Qed.

Lemma days_passed_calendar (now : datetime) :
  valid now = true ->
  days (sub now (mk_datetime (year now) 1 1 0 0 0 0)) = days_elapsed now.
Proof.
  intros Hv. apply valid_fields in Hv.
  destruct Hv as (_ & Hm & _ & Hh & Hmi & Hs & Hus).
  rewrite (days_elapsed_ordinal now Hm).
  unfold sub; cbn [year month day hour minute second microsecond].
  apply normalize_days_small; lia.
Qed.

Lemma days_in_year_pred_nonzero (y : Z) :
  ~ (inject_Z (days_in_year y - 1) == 0)%Q.
Proof.
  unfold days_in_year, Qeq; destruct (is_leap y); simpl; lia.
Qed.

Lemma calculate_target_km_eq (now : datetime) :
  valid now = true ->
  (calculate_target_km now ==
   inject_Z target_km / inject_Z (days_in_year (year now) - 1)
   * inject_Z (days_elapsed now))%Q.
Proof.
  intros Hv. unfold calculate_target_km.
  rewrite days_between_year, (days_passed_calendar now Hv).
  reflexivity.
Qed.

(** C1, as the specification words it, fails: at noon on 2 January 2026 one
    day has elapsed and the year has 365 days, yet the script returns
    2000/364, not 2000/365. *)
Lemma C1_days_in_year_counterexample :
  valid Sample.noon_jan_2 = true /\
  days_elapsed Sample.noon_jan_2 = 1 /\
  days_in_year (year Sample.noon_jan_2) = 365 /\
  ~ (calculate_target_km Sample.noon_jan_2
     == spec_target_km Sample.noon_jan_2)%Q.
Proof.
  repeat split; try reflexivity.
  vm_compute. discriminate.
Qed.

(** C1, amended: for every current date and time of the year, the target
    is [target * days elapsed since Jan 1 / (days in the year - 1)], the
    divisor being the difference Dec 31 - Jan 1 (364, or 365 in a leap
    year). Only the calendar date enters: two instants of the same day get
    the same target. *)
Theorem C1_calculate_target_km_calendar (now : datetime) :
  valid now = true ->
  (calculate_target_km now ==
   inject_Z target_km * inject_Z (days_elapsed now)
   / inject_Z (days_in_year (year now) - 1))%Q /\
  (forall later : datetime,
     valid later = true ->
     year later = year now -> month later = month now ->
     day later = day now ->
     (calculate_target_km later == calculate_target_km now)%Q).
Proof.
  intros Hv. split.
  - rewrite (calculate_target_km_eq now Hv).
    field. apply days_in_year_pred_nonzero.
  - intros later Hv' Hy Hm Hd.
    rewrite (calculate_target_km_eq now Hv), (calculate_target_km_eq later Hv').
    unfold days_elapsed. rewrite Hy, Hm, Hd. reflexivity.
Qed.

Lemma C1_calculate_target_km_calendar_witness :
  valid (mk_datetime 2024 3 1 23 59 59 999999) = true /\
  (calculate_target_km (mk_datetime 2024 3 1 23 59 59 999999)
   == inject_Z 2000 * inject_Z 60 / inject_Z 365)%Q /\
  (calculate_target_km (mk_datetime 2024 3 1 0 0 0 0)
   == calculate_target_km (mk_datetime 2024 3 1 23 59 59 999999))%Q.
Proof.
  split; [reflexivity | ].
  destruct (C1_calculate_target_km_calendar
              (mk_datetime 2024 3 1 23 59 59 999999) eq_refl)
    as [Hformula Hday].
  split; [exact Hformula | ].
  apply (Hday (mk_datetime 2024 3 1 0 0 0 0)); reflexivity.
Defined.

(** C6: on 1 January of any year, at any time of day, the target is 0; on
    31 December it is the full annual target. *)
Theorem C6_target_jan1_dec31 (now : datetime) :
  valid now = true ->
  (month now = 1 /\ day now = 1 -> (calculate_target_km now == 0)%Q) /\
  (month now = 12 /\ day now = 31 ->
   (calculate_target_km now == inject_Z target_km)%Q).
Proof.
  intros Hv. split; intros [Hm Hd];
    rewrite (calculate_target_km_eq now Hv).
  - unfold days_elapsed. rewrite Hm, Hd. simpl. ring.
  - assert (He : days_elapsed now = days_in_year (year now) - 1).
    { unfold days_elapsed, days_in_year. rewrite Hm, Hd.
      change (Z.to_nat (12 - 1)) with 11%nat.
      cbn [month_lengths_before Z.of_nat Pos.of_succ_nat Pos.succ
           days_in_month].
      destruct (is_leap (year now)); lia. }
    rewrite He. field. apply days_in_year_pred_nonzero.
Qed.

Lemma C6_target_jan1_dec31_witness :
  (calculate_target_km (mk_datetime 2026 1 1 8 30 0 0) == 0)%Q /\
  (calculate_target_km (mk_datetime 2028 12 31 23 59 59 0)
   == inject_Z target_km)%Q.
Proof.
  split.
  - exact (proj1 (C6_target_jan1_dec31 (mk_datetime 2026 1 1 8 30 0 0)
                    eq_refl) (conj eq_refl eq_refl)).
  - exact (proj2 (C6_target_jan1_dec31 (mk_datetime 2028 12 31 23 59 59 0)
                    eq_refl) (conj eq_refl eq_refl)).
Defined.

(* ------------------------------------------------------------------ *)
(** ** Running the script *)

(** Symbolic execution: unfold the script down to the tests it makes, and
    split on each in turn (a missing key, a reply, a status code, an empty
    list). The sections that only draw stay folded. *)
#[local] Arguments stats_section : simpl never.
#[local] Arguments raw_section : simpl never.
#[local] Arguments filter : simpl never.

Ltac unfold_script :=
  unfold page_load, main, load_phase, token_phase, fetch_phase, latest_phase,
    route_section, get_route_poly, decode, refresh_token, get_activities,
    get_activity,
    load_config, save_config, raise_for_status, json, arrive, item,
    try_except, bind, ret, raise, st_stop, tell, get_cfg, set_cfg, update_cfg,
    Pandas.iloc0 in *.

Ltac split_script :=
  match goal with
  | |- context [match ?x with Some _ => _ | None => _ end] =>
      destruct x eqn:?
  | |- context [if ?b then _ else _] => destruct b eqn:?
  | |- context [match ?l with [] => _ | _ :: _ => _ end] => destruct l eqn:?
  | |- context [match ?j with MapNull => _ | MapObject _ => _ end] =>
      destruct j eqn:?
  end.

Ltac run_script :=
  unfold_script; cbn [cfg config_toml trace fst snd];
  repeat (split_script; cbn [cfg config_toml trace fst snd]).

Lemma occurs_in_last (part pre : list event) :
  occurs_in part (pre ++ part).
Proof. exists pre, []. rewrite app_nil_r. reflexivity. Qed.

Lemma occurs_in_app_l (part tr rest : list event) :
  occurs_in part tr -> occurs_in part (tr ++ rest).
Proof.
  intros (pre & post & ->). exists pre, (post ++ rest)%list.
  rewrite <- !app_assoc. reflexivity.
Qed.

Lemma occurs_in_In (part tr : list event) (e : event) :
  occurs_in part tr -> In e part -> In e tr.
Proof.
  intros (pre & post & ->) Hin.
  apply in_or_app; right. apply in_or_app; left. exact Hin.
Qed.

Ltac find_part :=
  repeat lazymatch goal with
         | |- occurs_in ?p (_ ++ ?p) => apply occurs_in_last
         | |- occurs_in _ (_ ++ _) => apply occurs_in_app_l
         end.

Lemma pair_snd_eq {A B : Type} (a a' : A) (b b' : B) :
  (a, b) = (a', b') -> b = b'.
Proof. intros H. exact (f_equal snd H). Qed.

Lemma occurs_in_app_first (a b tr : list event) :
  occurs_in (a ++ b) tr -> occurs_in a tr.
Proof.
  intros (pre & post & ->). exists pre, (b ++ post)%list.
  rewrite <- !app_assoc. reflexivity.
Qed.

Lemma occurs_in_app_second (a b tr : list event) :
  occurs_in (a ++ b) tr -> occurs_in b tr.
Proof.
  intros (pre & post & ->). exists (pre ++ a)%list, post.
  rewrite <- !app_assoc. reflexivity.
Qed.

Lemma page_load_snd (env : Env) (file : option Config) (r : result unit) :
  fst (page_load env file) = r ->
  page_load env file = (r, snd (page_load env file)).
Proof. intros <-. apply surjective_pairing. Qed.

(* ------------------------------------------------------------------ *)
(** ** Missing config file *)

(** C9: with no config file, [load_config] raises FileNotFoundError, and
    the page shows the error and stops: the run ends by [st.stop()], not by
    an exception, and nothing is drawn after the error message. *)
Theorem C9_missing_config_halts (env : Env) :
  (forall c tr,
     load_config (mk_state c None tr)
     = (Raise FileNotFoundError, mk_state c None tr)) /\
  page_load env None
  = (Stop,
     mk_state (mk_config None None None None None) None
       [ StSetPageConfig "Strava — Last Activity" "wide";
         StTitle "Strava — Last Activity";
         StError "config.yml not found in workspace root." None ]).
Proof. split; reflexivity. Qed.

(* ------------------------------------------------------------------ *)
(** ** Activities without a run *)

(** C3, on the failing input: the list endpoint returns one ride and no
    run. The claim asks for the statistics with a zero sum and an
    unavailable mean; the run ends with an uncaught IndexError at
    [running_activities.iloc[0]], right after the list request, and no
    metric is drawn. *)
Theorem C3_no_run_raises_IndexError :
  page_load (Sample.env 50 200 [Sample.ride_20k]) (Some (Sample.config 100))
  = (Raise IndexError,
     mk_state (Sample.config 100) (Some (Sample.config 100))
       [ StSetPageConfig "Strava — Last Activity" "wide";
         StTitle "Strava — Last Activity";
         GetActivities "access-0" 30 1 1767225600 ]).
Proof. reflexivity. Qed.

(* ------------------------------------------------------------------ *)
(** ** Remaining distance to the target *)

Lemma max0_Qmax (x : Q) : (Py.max0 x == Qmax 0 x)%Q.
Proof.
  unfold Py.max0. destruct (Qlt_le_dec 0 x) as [H | H].
  - symmetry. apply Q.max_r. apply Qlt_le_weak. exact H.
  - symmetry. apply Q.max_l. exact H.
Qed.

Lemma max0_nonneg (x : Q) : (0 <= Py.max0 x)%Q.
Proof.
  unfold Py.max0. destruct (Qlt_le_dec 0 x) as [H | H].
  - apply Qlt_le_weak. exact H.
  - apply Qle_refl.
Qed.

Lemma max0_floor (x : Q) : (x <= 0)%Q -> (Py.max0 x == 0)%Q.
Proof.
  intros Hx. unfold Py.max0. destruct (Qlt_le_dec 0 x) as [H | H].
  - exfalso. apply (Qlt_irrefl 0). apply (Qlt_le_trans _ x); assumption.
  - reflexivity.
Qed.

(* ------------------------------------------------------------------ *)
(** ** Aggregate run statistics *)

Lemma sum_map_total (field : Summary -> Q) (rows : list Summary) :
  Pandas.sum (map field rows) = total field rows.
Proof.
  induction rows as [ | row rows IH]; [reflexivity | ].
  unfold Pandas.sum, total in *; cbn [map fold_right]. rewrite IH. reflexivity.
Qed.

Lemma is_run_runs_of (activities : list Summary) :
  filter is_run activities = runs_of activities.
Proof. reflexivity. Qed.

Lemma mean_map_nonempty (field : Summary -> Q) (row : Summary)
      (rows : list Summary) :
  Pandas.mean (map field (row :: rows))
  = Some (total field (row :: rows) / inject_Z (count (row :: rows)))%Q.
Proof.
  unfold Pandas.mean, count at 1. cbn [map].
  change (field row :: map field rows) with (map field (row :: rows)).
  rewrite sum_map_total, length_map. reflexivity.
Qed.

(* ------------------------------------------------------------------ *)
(** ** Average speed of the latest run *)

Lemma truthy_true (v : Q) : ~ (v == 0)%Q -> Py.truthy v = true.
Proof.
  intros Hv. unfold Py.truthy. destruct (Qeq_bool v 0) eqn:E; [ | reflexivity].
  exfalso. apply Hv. apply Qeq_bool_eq. exact E.
Qed.

Lemma truthy_false (v : Q) : (v == 0)%Q -> Py.truthy v = false.
Proof.
  intros Hv. unfold Py.truthy. rewrite (Qeq_eq_bool _ _ Hv). reflexivity.
Qed.

Lemma kmh_nonzero (v : Q) : ~ (v == 0)%Q -> ~ (kmh v == 0)%Q.
Proof.
  intros Hv H. unfold kmh in H.
  destruct (Qmult_integral _ _ H) as [H0 | H0]; [exact (Hv H0) | discriminate].
Qed.

(* ------------------------------------------------------------------ *)
(** ** Token refresh: failure leaves the config alone *)

(** C10, as stated for every non-2xx status, fails: [raise_for_status]
    lets a 300 through, and when that response carries the three keys the
    dict is updated and the file rewritten. *)
Lemma C10_status_300_counterexample :
  let env := Sample.env 500 300 [] in
  let s0 := mk_state (Sample.config 100) (Some (Sample.config 100)) [] in
  let c1 := mk_config (Some "12345") (Some "secret") (Some "refresh-1")
                      (Some "access-1") (Some 5000) in
  ~ (200 <= 300 < 300) /\
  oauth_token (api env)
    (mk_token_form "12345" "secret" "refresh-0" "refresh_token")
  = Some (mk_response 300 (Some Sample.fresh_tokens)) /\
  refresh_token env s0
  = (Ret c1,
     mk_state c1 (Some c1)
       [PostToken (mk_token_form "12345" "secret" "refresh-0"
                                 "refresh_token")]) /\
  c1 <> cfg s0 /\ Some c1 <> config_toml s0.
Proof.
  cbv zeta. repeat split; try reflexivity; try lia; discriminate.
Qed.

(** C10, amended: for every config, if the token endpoint answers with a
    4xx or 5xx status (the statuses [raise_for_status] rejects),
    [refresh_token] raises, and at that point neither the dict nor the file
    has been touched. *)
Theorem C10_refresh_failure_keeps_config (env : Env) (s : state) :
  (forall form, exists r,
      oauth_token (api env) form = Some r /\ 400 <= status_code r < 600) ->
  exists e s',
    refresh_token env s = (Raise e, s') /\
    cfg s' = cfg s /\ config_toml s' = config_toml s.
Proof.
  intros Hfail. unfold refresh_token, bind, get_cfg, item, ret, raise, tell.
  destruct (client_id (cfg s)) as [cid | ];
    [ | eexists; eexists; repeat split; reflexivity].
  destruct (client_secret (cfg s)) as [secret | ];
    [ | eexists; eexists; repeat split; reflexivity].
  destruct (cfg_refresh_token (cfg s)) as [rt | ];
    [ | eexists; eexists; repeat split; reflexivity].
  destruct (Hfail (mk_token_form cid secret rt "refresh_token"))
    as (r & Hreply & Hlo & Hhi).
  cbn [cfg config_toml trace]. rewrite Hreply.
  unfold arrive, ret, raise_for_status, raises_for_status, raise.
  apply Z.leb_le in Hlo. apply Z.ltb_lt in Hhi. rewrite Hlo, Hhi.
  cbn [andb]. eexists; eexists; repeat split; reflexivity.
Qed.

Lemma C10_refresh_failure_keeps_config_witness :
  exists e s',
    refresh_token (Sample.env 500 401 [])
      (mk_state (Sample.config 100) (Some (Sample.config 100)) [])
    = (Raise e, s') /\
    cfg s' = Sample.config 100 /\ config_toml s' = Some (Sample.config 100).
Proof.
  apply (C10_refresh_failure_keeps_config (Sample.env 500 401 [])
           (mk_state (Sample.config 100) (Some (Sample.config 100)) [])).
  intros form. eexists. split; [reflexivity | ]. cbn. lia.
Defined.

(* ------------------------------------------------------------------ *)
(** ** Token refresh: when it runs *)

Lemma token_is_stale_true (env : Env) (c : Config) :
  (inject_Z (Py.get (expires_at c) 0%Z) < time_time env)%Q ->
  token_is_stale env c = true.
Proof.
  intros H. unfold token_is_stale.
  destruct (Qlt_le_dec _ _) as [_ | Hle]; [reflexivity | ].
  exfalso. exact (Qlt_not_le _ _ H Hle).
Qed.

Lemma token_is_stale_false (env : Env) (c : Config) :
  (time_time env <= inject_Z (Py.get (expires_at c) 0%Z))%Q ->
  token_is_stale env c = false.
Proof.
  intros H. unfold token_is_stale.
  destruct (Qlt_le_dec _ _) as [Hlt | _]; [ | reflexivity].
  exfalso. exact (Qlt_not_le _ _ Hlt H).
Qed.

Lemma guarded_sound (tr : list event) :
  forall spinner posted,
    guarded spinner posted tr = true ->
    forall pre e post,
      tr = (pre ++ e :: post)%list ->
      is_authenticated_call e = true ->
      spinner || existsb is_refresh_spinner pre = true /\
      posted || existsb is_token_request pre = true.
Proof.
  induction tr as [ | x tr IH]; intros spinner posted Hg pre e post Heq Hauth.
  - destruct pre; discriminate.
  - cbn [guarded] in Hg. apply andb_true_iff in Hg. destruct Hg as [Hx Hrest].
    destruct pre as [ | y pre]; cbn [app] in Heq; injection Heq as -> ->.
    + rewrite Hauth in Hx. apply andb_true_iff in Hx. destruct Hx as [-> ->].
      split; reflexivity.
    + destruct (IH _ _ Hrest pre e post eq_refl Hauth) as [H1 H2].
      cbn [existsb]. rewrite <- !orb_assoc in H1, H2. split; assumption.
Qed.

Lemma guarded_calls_follow_refresh (tr : list event) :
  guarded false false tr = true -> calls_follow_refresh tr.
Proof.
  intros Hg pre e post Heq Hauth.
  exact (guarded_sound tr false false Hg pre e post Heq Hauth).
Qed.

(** C2, as stated with [expires_at <= now], fails at equality: with
    [expires_at = now = 100] the list request goes out with the stored
    token and the refresh branch is never entered. *)
Lemma C2_expiry_equal_now_counterexample :
  let env := Sample.env 100 200 [Sample.run_5k] in
  let c := Sample.config 100 in
  let s := snd (page_load env (Some c)) in
  (inject_Z (Py.get (expires_at c) 0%Z) <= time_time env)%Q /\
  In (GetActivities "access-0" 30 1 1767225600) (trace s) /\
  ~ refresh_invoked (trace s) /\
  existsb is_token_request (trace s) = false.
Proof.
  cbv zeta. split; [discriminate | ].
  split; [right; right; left; reflexivity | ].
  split; [unfold refresh_invoked; discriminate | reflexivity].
Qed.

(** C2, amended: for every config with [expires_at < now] (a missing
    key counting as 0) the refresh branch is entered, and every
    authenticated request of the page load comes after it and after the
    request to the token endpoint; for every config with
    [expires_at >= now] the refresh branch is not entered and the token
    endpoint is not called. *)
Theorem C2_refresh_gate (env : Env) (c : Config) :
  let s := snd (page_load env (Some c)) in
  let expiry := inject_Z (Py.get (expires_at c) 0%Z) in
  ((expiry < time_time env)%Q ->
   refresh_invoked (trace s) /\ calls_follow_refresh (trace s)) /\
  ((time_time env <= expiry)%Q -> no_refresh (trace s)).
Proof.
  cbv zeta. split; intros Hcmp.
  - apply token_is_stale_true in Hcmp. revert Hcmp.
    destruct c as [cid sec rt tok exp].
    run_script.
    all: intros Hst; try discriminate Hst.
    all: split; [reflexivity | apply guarded_calls_follow_refresh; reflexivity].
  - apply token_is_stale_false in Hcmp. revert Hcmp.
    destruct c as [cid sec rt tok exp].
    run_script.
    all: intros Hst; try discriminate Hst.
    all: split; reflexivity.
Qed.

Lemma C2_refresh_gate_witness :
  (refresh_invoked
     (trace (snd (page_load (Sample.env 500 200 [Sample.run_5k])
                            (Some (Sample.config 100))))) /\
   calls_follow_refresh
     (trace (snd (page_load (Sample.env 500 200 [Sample.run_5k])
                            (Some (Sample.config 100)))))) /\
  no_refresh
    (trace (snd (page_load (Sample.env 50 200 [Sample.run_5k])
                           (Some (Sample.config 100))))).
Proof.
  split.
  - apply (proj1 (C2_refresh_gate (Sample.env 500 200 [Sample.run_5k])
                    (Sample.config 100))).
    reflexivity.
  - apply (proj2 (C2_refresh_gate (Sample.env 50 200 [Sample.run_5k])
                    (Sample.config 100))).
    discriminate.
Defined.


(* ================================================================== *)
(** * Further properties of the script *)

(* ------------------------------------------------------------------ *)
(** ** [refresh_token] *)

(** X1: with the three credentials in the config and a response that
    [raise_for_status] lets through and whose JSON has the three token
    keys, [refresh_token] posts one form built from the old config,
    replaces the three token fields, keeps [client_id] and [client_secret],
    writes the new config to the file and returns it. *)
Theorem X1_refresh_token_success (env : Env) (s : state)
        (cid secret rt : string) (r : response TokenJson)
        (new_access new_refresh : string) (new_expiry : Z) :
  client_id (cfg s) = Some cid ->
  client_secret (cfg s) = Some secret ->
  cfg_refresh_token (cfg s) = Some rt ->
  oauth_token (api env) (refresh_form cid secret rt) = Some r ->
  raises_for_status (status_code r) = false ->
  body r = Some (mk_token_json (Some new_access) (Some new_refresh)
                               (Some new_expiry)) ->
  let c' := mk_config (Some cid) (Some secret) (Some new_refresh)
                      (Some new_access) (Some new_expiry) in
  refresh_token env s
  = (Ret c',
     mk_state c' (Some c')
              (trace s ++ [PostToken (refresh_form cid secret rt)])).
Proof.
  intros Hcid Hsec Hrt Hreply Hstatus Hbody c'.
  cbv [refresh_token bind get_cfg item ret raise tell arrive
       raise_for_status json update_cfg save_config].
  rewrite Hcid, Hsec, Hrt.
  fold (refresh_form cid secret rt). rewrite Hreply. cbv beta iota.
  rewrite Hstatus. cbv beta iota. rewrite Hbody.
  cbn [js_access_token js_refresh_token js_expires_at cfg config_toml trace].
  unfold set_expires_at, set_refresh_token, set_access_token.
  cbn [client_id client_secret cfg_refresh_token access_token expires_at].
  rewrite Hcid, Hsec. reflexivity.
Qed.

Lemma X1_refresh_token_success_witness :
  refresh_token (Sample.env 500 200 [])
    (mk_state (Sample.config 100) (Some (Sample.config 100)) [])
  = (Ret (mk_config (Some "12345") (Some "secret") (Some "refresh-1")
                    (Some "access-1") (Some 5000)),
     mk_state
       (mk_config (Some "12345") (Some "secret") (Some "refresh-1")
                  (Some "access-1") (Some 5000))
       (Some (mk_config (Some "12345") (Some "secret") (Some "refresh-1")
                        (Some "access-1") (Some 5000)))
       [PostToken (refresh_form "12345" "secret" "refresh-0")]).
Proof.
  exact (X1_refresh_token_success (Sample.env 500 200 [])
           (mk_state (Sample.config 100) (Some (Sample.config 100)) [])
           "12345" "secret" "refresh-0"
           (mk_response 200 (Some Sample.fresh_tokens))
           "access-1" "refresh-1" 5000
           eq_refl eq_refl eq_refl eq_refl eq_refl eq_refl).
Defined.

(** X2: whatever the config and whatever the endpoint answers,
    [refresh_token] never ends by [st.stop()], writes the file only when it
    returns normally, and then the file and the dict in memory both hold
    the config it returns, with [client_id] and [client_secret] as they
    were. When it raises, the file is as before. *)
Theorem X2_refresh_token_file_invariant (env : Env) (s : state) :
  match refresh_token env s with
  | (Ret c, s') =>
      cfg s' = c /\ config_toml s' = Some c /\
      client_id c = client_id (cfg s) /\
      client_secret c = client_secret (cfg s)
  | (Raise _, s') => config_toml s' = config_toml s
  | (Stop, _) => False
  end.
Proof.
  destruct s as [[cid sec rt tok exp] file tr].
  cbv [refresh_token bind get_cfg item ret raise tell arrive
       raise_for_status json update_cfg save_config].
  cbn [cfg config_toml trace client_id client_secret cfg_refresh_token].
  destruct cid as [cid | ]; [ | reflexivity].
  destruct sec as [sec | ]; [ | reflexivity].
  destruct rt as [rt | ]; [ | reflexivity].
  cbn [cfg config_toml trace].
  destruct (oauth_token (api env) _) as [r | ]; [ | reflexivity].
  destruct (raises_for_status (status_code r)); [reflexivity | ].
  destruct (body r) as [[[new_access | ] [new_refresh | ] [new_expiry | ]] | ];
    cbn [js_access_token js_refresh_token js_expires_at cfg config_toml trace];
    try reflexivity.
  repeat split; reflexivity.
Qed.

(** X3: when one of [client_id], [client_secret], [refresh_token] is
    missing from the config, [refresh_token] raises KeyError before any
    request is sent: the dict, the file and the trace are untouched. *)
Theorem X3_refresh_token_missing_credential (env : Env) (s : state) :
  client_id (cfg s) = None \/ client_secret (cfg s) = None \/
  cfg_refresh_token (cfg s) = None ->
  exists key, refresh_token env s = (Raise (KeyError key), s).
Proof.
  intros Hmissing.
  unfold refresh_token, bind, get_cfg, item, ret, raise.
  destruct (client_id (cfg s)) as [cid | ];
    [ | eexists; reflexivity].
  destruct (client_secret (cfg s)) as [sec | ];
    [ | eexists; reflexivity].
  destruct (cfg_refresh_token (cfg s)) as [rt | ];
    [ | eexists; reflexivity].
  destruct Hmissing as [H | [H | H]]; discriminate H.
Qed.

Lemma X3_refresh_token_missing_credential_witness :
  exists key,
    refresh_token (Sample.env 500 200 [])
      (mk_state (mk_config (Some "12345") None (Some "refresh-0")
                           (Some "access-0") (Some 100))
                None [])
    = (Raise (KeyError key),
       mk_state (mk_config (Some "12345") None (Some "refresh-0")
                           (Some "access-0") (Some 100))
                None []).
Proof.
  apply (X3_refresh_token_missing_credential (Sample.env 500 200 [])).
  right; left. reflexivity.
Defined.

(** X4: the three assignments are not atomic. When the response has an
    [access_token] but no [refresh_token] key, KeyError is raised after the
    first assignment: the dict in memory already holds the new access
    token, and the file still holds the old config. *)
Theorem X4_refresh_token_partial_update (env : Env) (s : state)
        (cid secret rt : string) (r : response TokenJson)
        (js : TokenJson) (new_access : string) :
  client_id (cfg s) = Some cid ->
  client_secret (cfg s) = Some secret ->
  cfg_refresh_token (cfg s) = Some rt ->
  oauth_token (api env) (refresh_form cid secret rt) = Some r ->
  raises_for_status (status_code r) = false ->
  body r = Some js ->
  js_access_token js = Some new_access ->
  js_refresh_token js = None ->
  refresh_token env s
  = (Raise (KeyError "refresh_token"),
     mk_state (set_access_token new_access (cfg s)) (config_toml s)
              (trace s ++ [PostToken (refresh_form cid secret rt)])).
Proof.
  intros Hcid Hsec Hrt Hreply Hstatus Hbody Haccess Hrefresh.
  cbv [refresh_token bind get_cfg item ret raise tell arrive
       raise_for_status json update_cfg save_config].
  rewrite Hcid, Hsec, Hrt.
  fold (refresh_form cid secret rt). rewrite Hreply. cbv beta iota.
  rewrite Hstatus. cbv beta iota. rewrite Hbody, Haccess.
  cbn [cfg config_toml trace]. rewrite Hrefresh.
  reflexivity.
Qed.

Lemma X4_refresh_token_partial_update_witness :
  let env :=
    mk_env 500 Sample.noon_jan_2
      (mk_remote
         (fun _ => Some (mk_response 200
                           (Some (mk_token_json (Some "access-1") None
                                                (Some 5000)))))
         (fun _ _ _ _ => None) (fun _ _ => None))
      (fun _ => None) in
  refresh_token env
    (mk_state (Sample.config 100) (Some (Sample.config 100)) [])
  = (Raise (KeyError "refresh_token"),
     mk_state (set_access_token "access-1" (Sample.config 100))
              (Some (Sample.config 100))
              [PostToken (refresh_form "12345" "secret" "refresh-0")]).
Proof.
  intros env.
  exact (X4_refresh_token_partial_update env
           (mk_state (Sample.config 100) (Some (Sample.config 100)) [])
           "12345" "secret" "refresh-0" _
           (mk_token_json (Some "access-1") None (Some 5000)) "access-1"
           eq_refl eq_refl eq_refl eq_refl eq_refl eq_refl eq_refl eq_refl).
Defined.

(* ------------------------------------------------------------------ *)
(** ** The page load, path by path *)

Ltac start_page :=
  cbv [page_load main load_phase token_phase fetch_phase latest_phase
       get_activities get_activity load_config bind try_except get_cfg
       set_cfg item ret raise st_stop tell arrive raise_for_status json
       Pandas.iloc0 cfg config_toml trace].

Ltac step_with H := rewrite H; cbv beta iota.

(** X5: with a token that has not expired, when the list request gets no
    response, a 4xx or 5xx status, or a body that is not JSON, the page
    shows "Failed to fetch activities" with the cause and stops: one
    request was sent, no detail request, nothing else drawn, the config
    untouched. *)
Theorem X5_list_failure_stops (env : Env) (c : Config) (token : string) :
  (time_time env <= inject_Z (Py.get (expires_at c) 0%Z))%Q ->
  access_token c = Some token ->
  athlete_activities (api env) token 30 1 1767225600 = None \/
  (exists r,
      athlete_activities (api env) token 30 1 1767225600 = Some r /\
      (raises_for_status (status_code r) = true \/ body r = None)) ->
  exists e,
    page_load env (Some c)
    = (Stop,
       mk_state c (Some c)
         [ StSetPageConfig "Strava — Last Activity" "wide";
           StTitle "Strava — Last Activity";
           GetActivities token 30 1 1767225600;
           StError "Failed to fetch activities: " (Some e) ]).
Proof.
  intros Hfresh Htoken Hfail. apply token_is_stale_false in Hfresh.
  start_page. step_with Hfresh. step_with Htoken.
  destruct Hfail as [Hnone | (r & Hreply & [Hstatus | Hbody])].
  - step_with Hnone. eexists. reflexivity.
  - step_with Hreply. step_with Hstatus. eexists. reflexivity.
  - step_with Hreply.
    destruct (raises_for_status (status_code r)); cbv beta iota.
    + eexists. reflexivity.
    + step_with Hbody. eexists. reflexivity.
Qed.

Lemma X5_list_failure_stops_witness :
  let env :=
    mk_env 50 Sample.noon_jan_2
      (mk_remote (fun _ => None)
                 (fun _ _ _ _ => Some (mk_response 503 None))
                 (fun _ _ => None))
      (fun _ => None) in
  exists e,
    page_load env (Some (Sample.config 100))
    = (Stop,
       mk_state (Sample.config 100) (Some (Sample.config 100))
         [ StSetPageConfig "Strava — Last Activity" "wide";
           StTitle "Strava — Last Activity";
           GetActivities "access-0" 30 1 1767225600;
           StError "Failed to fetch activities: " (Some e) ]).
Proof.
  intros env.
  apply (X5_list_failure_stops env (Sample.config 100) "access-0").
  - discriminate.
  - reflexivity.
  - right. eexists. split; [reflexivity | ]. left. reflexivity.
Defined.

(** X6: with a token that has not expired and no [access_token] key in
    the config, the KeyError is caught like a failed request: the page
    shows "Failed to fetch activities" and stops without sending
    anything. *)
Theorem X6_missing_access_token_stops (env : Env) (c : Config) :
  (time_time env <= inject_Z (Py.get (expires_at c) 0%Z))%Q ->
  access_token c = None ->
  page_load env (Some c)
  = (Stop,
     mk_state c (Some c)
       [ StSetPageConfig "Strava — Last Activity" "wide";
         StTitle "Strava — Last Activity";
         StError "Failed to fetch activities: "
                 (Some (KeyError "access_token")) ]).
Proof.
  intros Hfresh Htoken. apply token_is_stale_false in Hfresh.
  start_page. step_with Hfresh. step_with Htoken. reflexivity.
Qed.

Lemma X6_missing_access_token_stops_witness :
  page_load (Sample.env 50 200 [Sample.run_5k])
    (Some (mk_config (Some "12345") (Some "secret") (Some "refresh-0")
                     None (Some 100)))
  = (Stop,
     mk_state
       (mk_config (Some "12345") (Some "secret") (Some "refresh-0")
                  None (Some 100))
       (Some (mk_config (Some "12345") (Some "secret") (Some "refresh-0")
                        None (Some 100)))
       [ StSetPageConfig "Strava — Last Activity" "wide";
         StTitle "Strava — Last Activity";
         StError "Failed to fetch activities: "
                 (Some (KeyError "access_token")) ]).
Proof.
  apply (X6_missing_access_token_stops (Sample.env 50 200 [Sample.run_5k])).
  - discriminate.
  - reflexivity.
Defined.

(** X7: with a token that has not expired, when the list endpoint answers
    with an empty list, the page shows "No activities found." and stops;
    no detail request is sent. *)
Theorem X7_empty_list_stops (env : Env) (c : Config) (token : string)
        (r : response (list Summary)) :
  (time_time env <= inject_Z (Py.get (expires_at c) 0%Z))%Q ->
  access_token c = Some token ->
  athlete_activities (api env) token 30 1 1767225600 = Some r ->
  raises_for_status (status_code r) = false ->
  body r = Some [] ->
  page_load env (Some c)
  = (Stop,
     mk_state c (Some c)
       [ StSetPageConfig "Strava — Last Activity" "wide";
         StTitle "Strava — Last Activity";
         GetActivities token 30 1 1767225600;
         StInfo "No activities found." ]).
Proof.
  intros Hfresh Htoken Hreply Hstatus Hbody.
  apply token_is_stale_false in Hfresh.
  start_page. step_with Hfresh. step_with Htoken. step_with Hreply.
  step_with Hstatus. step_with Hbody. reflexivity.
Qed.

Lemma X7_empty_list_stops_witness :
  page_load (Sample.env 50 200 []) (Some (Sample.config 100))
  = (Stop,
     mk_state (Sample.config 100) (Some (Sample.config 100))
       [ StSetPageConfig "Strava — Last Activity" "wide";
         StTitle "Strava — Last Activity";
         GetActivities "access-0" 30 1 1767225600;
         StInfo "No activities found." ]).
Proof.
  exact (X7_empty_list_stops (Sample.env 50 200 []) (Sample.config 100)
           "access-0" (mk_response 200 (Some [])) ltac:(discriminate)
           eq_refl eq_refl eq_refl eq_refl).
Defined.

(** X8: the detail request is not inside a [try]. With a token that has
    not expired and a list that has a run, when the detail request for the
    first run gets no response, a 4xx or 5xx status, or a body that is not
    JSON, the exception leaves [main]: the run ends with it, after the two
    requests, and no metric is drawn. *)
Theorem X8_detail_failure_raises (env : Env) (c : Config) (token : string)
        (r : response (list Summary)) (activities : list Summary)
        (latest : Summary) (rest : list Summary) :
  (time_time env <= inject_Z (Py.get (expires_at c) 0%Z))%Q ->
  access_token c = Some token ->
  athlete_activities (api env) token 30 1 1767225600 = Some r ->
  raises_for_status (status_code r) = false ->
  body r = Some activities ->
  filter is_run activities = latest :: rest ->
  activities_id (api env) (s_id latest) token = None \/
  (exists r',
      activities_id (api env) (s_id latest) token = Some r' /\
      (raises_for_status (status_code r') = true \/ body r' = None)) ->
  exists e,
    page_load env (Some c)
    = (Raise e,
       mk_state c (Some c)
         [ StSetPageConfig "Strava — Last Activity" "wide";
           StTitle "Strava — Last Activity";
           GetActivities token 30 1 1767225600;
           GetActivity (s_id latest) token ]).
Proof.
  intros Hfresh Htoken Hreply Hstatus Hbody Hruns Hfail.
  apply token_is_stale_false in Hfresh.
  start_page. step_with Hfresh. step_with Htoken. step_with Hreply.
  step_with Hstatus. step_with Hbody.
  destruct activities as [ | first others]; [discriminate Hruns | ].
  cbv beta iota. step_with Hruns. step_with Htoken.
  destruct Hfail as [Hnone | (r' & Hreply' & [Hstatus' | Hbody'])].
  - step_with Hnone. eexists. reflexivity.
  - step_with Hreply'. step_with Hstatus'. eexists. reflexivity.
  - step_with Hreply'.
    destruct (raises_for_status (status_code r')); cbv beta iota.
    + eexists. reflexivity.
    + step_with Hbody'. eexists. reflexivity.
Qed.

Lemma X8_detail_failure_raises_witness :
  let env :=
    mk_env 50 Sample.noon_jan_2
      (mk_remote
         (fun _ => None)
         (fun _ _ _ _ =>
            Some (mk_response 200 (Some [Sample.ride_20k; Sample.run_5k])))
         (fun _ _ => Some (mk_response 404 None)))
      (fun _ => None) in
  exists e,
    page_load env (Some (Sample.config 100))
    = (Raise e,
       mk_state (Sample.config 100) (Some (Sample.config 100))
         [ StSetPageConfig "Strava — Last Activity" "wide";
           StTitle "Strava — Last Activity";
           GetActivities "access-0" 30 1 1767225600;
           GetActivity 11 "access-0" ]).
Proof.
  intros env.
  apply (X8_detail_failure_raises env (Sample.config 100) "access-0"
           (mk_response 200 (Some [Sample.ride_20k; Sample.run_5k]))
           [Sample.ride_20k; Sample.run_5k] Sample.run_5k []).
  - discriminate.
  - reflexivity.
  - reflexivity.
  - reflexivity.
  - reflexivity.
  - reflexivity.
  - right. eexists. split; [reflexivity | ]. left. reflexivity.
Defined.

(* ------------------------------------------------------------------ *)
(** ** The page load that completes *)

(** X10: enough for a complete page. With a token that has not expired,
    a list answer that holds a run, a detail answer for the first run of
    the list, and no polyline on it, the page load returns normally; it
    sends the two requests with the stored token, draws the metrics and
    the chart, the no-route notice and the raw JSON, and leaves the config
    and the file as they were. *)
Theorem X10_page_load_completes (env : Env) (c : Config) (token : string)
        (r : response (list Summary)) (activities : list Summary)
        (latest : Summary) (rest : list Summary)
        (r' : response Activity) (activity : Activity) :
  (time_time env <= inject_Z (Py.get (expires_at c) 0%Z))%Q ->
  access_token c = Some token ->
  athlete_activities (api env) token 30 1 1767225600 = Some r ->
  raises_for_status (status_code r) = false ->
  body r = Some activities ->
  filter is_run activities = latest :: rest ->
  activities_id (api env) (s_id latest) token = Some r' ->
  raises_for_status (status_code r') = false ->
  body r' = Some activity ->
  no_polyline activity ->
  page_load env (Some c)
  = (Ret tt,
     mk_state c (Some c)
       ([ StSetPageConfig "Strava — Last Activity" "wide";
          StTitle "Strava — Last Activity";
          GetActivities token 30 1 1767225600;
          GetActivity (s_id latest) token ]
        ++ stats_section env (latest :: rest) activity
        ++ [ StInfo "No GPS route (polyline) available for this activity." ]
        ++ raw_section activity)).
Proof.
  intros Hfresh Htoken Hreply Hstatus Hbody Hruns Hreply' Hstatus' Hbody'
         Hroute.
  apply token_is_stale_false in Hfresh.
  start_page. step_with Hfresh. step_with Htoken. step_with Hreply.
  step_with Hstatus. step_with Hbody.
  destruct activities as [ | first others]; [discriminate Hruns | ].
  cbv beta iota. step_with Hruns. step_with Htoken. step_with Hreply'.
  step_with Hstatus'. step_with Hbody'.
  unfold route_section, get_route_poly.
  destruct Hroute as [Hmap | (m & Hmap & Hpoly)]; rewrite Hmap;
    cbv [Py.get bind ret tell cfg config_toml trace polyline];
    [ | fold (polyline m); rewrite Hpoly ];
    cbv beta iota; rewrite <- !app_assoc; reflexivity.
Qed.

Lemma X10_page_load_completes_witness :
  page_load (Sample.env 50 200 [Sample.ride_20k; Sample.run_5k])
            (Some (Sample.config 100))
  = (Ret tt,
     mk_state (Sample.config 100) (Some (Sample.config 100))
       ([ StSetPageConfig "Strava — Last Activity" "wide";
          StTitle "Strava — Last Activity";
          GetActivities "access-0" 30 1 1767225600;
          GetActivity 11 "access-0" ]
        ++ stats_section (Sample.env 50 200 [Sample.ride_20k; Sample.run_5k])
                         [Sample.run_5k] Sample.manual_run
        ++ [ StInfo "No GPS route (polyline) available for this activity." ]
        ++ raw_section Sample.manual_run)).
Proof.
  exact (X10_page_load_completes
           (Sample.env 50 200 [Sample.ride_20k; Sample.run_5k])
           (Sample.config 100) "access-0"
           (mk_response 200 (Some [Sample.ride_20k; Sample.run_5k]))
           [Sample.ride_20k; Sample.run_5k] Sample.run_5k []
           (mk_response 200 (Some Sample.manual_run)) Sample.manual_run
           ltac:(discriminate) eq_refl eq_refl eq_refl eq_refl eq_refl
           eq_refl eq_refl eq_refl (or_introl eq_refl)).
Defined.

(* ------------------------------------------------------------------ *)
(** ** What holds on every page load *)

Ltac split_trace :=
  unfold stats_section, ytd_stats, latest_summary, raw_section;
  repeat first [ apply Forall_app; split
               | apply Forall_cons
               | apply Forall_nil ].

(** X11: whatever the file, the clock and the API do, every authenticated
    request of a page load carries the access token of the config as it
    stands at the end of the run: the stored one when no refresh happened,
    the one just received when it did, and never the one that was
    replaced. *)
Theorem X11_requests_carry_current_token (env : Env) (file : option Config) :
  let s := snd (page_load env file) in
  Forall (carries (access_token (cfg s))) (trace s).
Proof.
  cbv zeta. destruct file as [[cid sec rt tok exp] | ].
  - run_script.
    all: split_trace; try exact I; cbn [carries]; congruence.
  - cbn. repeat constructor.
Qed.

(** X12: no retry and no second page. On every page load the token
    endpoint, the list endpoint, the detail endpoint and the polyline
    decoder are each called at most once. *)
Theorem X12_at_most_one_call_each (env : Env) (file : option Config) :
  let tr := trace (snd (page_load env file)) in
  (count_events is_token_request tr <= 1)%nat /\
  (count_events is_list_request tr <= 1)%nat /\
  (count_events is_detail_request tr <= 1)%nat /\
  (count_events
     (fun e => match e with PolylineDecode _ => true | _ => false end) tr
   <= 1)%nat.
Proof.
  cbv zeta. destruct file as [[cid sec rt tok exp] | ].
  - run_script.
    all: repeat split; apply Nat.leb_le; reflexivity.
  - repeat split; apply Nat.leb_le; reflexivity.
Qed.

(** X13: a page load whose token has not expired leaves the credentials
    alone, however it ends: the dict in memory and the file both still hold
    the config that was loaded. *)
Theorem X13_fresh_token_keeps_config (env : Env) (c : Config) :
  (time_time env <= inject_Z (Py.get (expires_at c) 0%Z))%Q ->
  let s := snd (page_load env (Some c)) in
  cfg s = c /\ config_toml s = Some c.
Proof.
  intros Hfresh. cbv zeta. apply token_is_stale_false in Hfresh.
  revert Hfresh. destruct c as [cid sec rt tok exp].
  run_script.
  all: intros Hst; try discriminate Hst.
  all: split; reflexivity.
Qed.

Lemma X13_fresh_token_keeps_config_witness :
  cfg (snd (page_load (Sample.env 50 401 [Sample.ride_20k])
                      (Some (Sample.config 100))))
  = Sample.config 100 /\
  config_toml (snd (page_load (Sample.env 50 401 [Sample.ride_20k])
                              (Some (Sample.config 100))))
  = Some (Sample.config 100).
Proof.
  apply (X13_fresh_token_keeps_config (Sample.env 50 401 [Sample.ride_20k])
           (Sample.config 100)).
  discriminate.
Defined.

(** X15: with an expired token, an authenticated request is sent only if
    the refresh went through to the end: "Token refreshed" was shown and
    the file holds the same config as the dict in memory. *)
Theorem X15_stale_token_calls_after_saved_refresh (env : Env) (c : Config) :
  (inject_Z (Py.get (expires_at c) 0%Z) < time_time env)%Q ->
  let s := snd (page_load env (Some c)) in
  existsb is_authenticated_call (trace s) = true ->
  existsb is_refresh_success (trace s) = true /\
  config_toml s = Some (cfg s).
Proof.
  intros Hstale. cbv zeta. apply token_is_stale_true in Hstale.
  revert Hstale. destruct c as [cid sec rt tok exp].
  run_script.
  all: intros Hst; try discriminate Hst.
  all: intros Hcall; first [ discriminate Hcall | split; reflexivity ].
Qed.

Lemma X15_stale_token_calls_after_saved_refresh_witness :
  existsb is_refresh_success
    (trace (snd (page_load (Sample.env 500 200 [Sample.run_5k])
                           (Some (Sample.config 100))))) = true /\
  config_toml (snd (page_load (Sample.env 500 200 [Sample.run_5k])
                              (Some (Sample.config 100))))
  = Some (cfg (snd (page_load (Sample.env 500 200 [Sample.run_5k])
                              (Some (Sample.config 100))))).
Proof.
  apply (X15_stale_token_calls_after_saved_refresh
           (Sample.env 500 200 [Sample.run_5k]) (Sample.config 100)).
  - reflexivity.
  - reflexivity.
Defined.

(* ------------------------------------------------------------------ *)
(** ** The target over the year *)

Ltac month_cases m :=
  let Hc := fresh "Hc" in
  assert (Hc : m = 1 \/ m = 2 \/ m = 3 \/ m = 4 \/ m = 5 \/ m = 6 \/
               m = 7 \/ m = 8 \/ m = 9 \/ m = 10 \/ m = 11 \/ m = 12)
    by lia;
  destruct Hc as [-> | [-> | [-> | [-> | [-> | [-> | [-> | [-> | [-> | [-> | [-> | ->]]]]]]]]]]].

Ltac eval_months :=
  repeat match goal with
         | |- context [Z.to_nat ?e] =>
             let v := eval vm_compute in (Z.to_nat e) in
             progress change (Z.to_nat e) with v
         | H : context [Z.to_nat ?e] |- _ =>
             let v := eval vm_compute in (Z.to_nat e) in
             progress change (Z.to_nat e) with v in H
         end;
  cbn [month_lengths_before Z.of_nat Pos.of_succ_nat Pos.succ days_in_month]
    in *.

Lemma days_elapsed_range (now : datetime) :
  valid now = true ->
  0 <= days_elapsed now <= days_in_year (year now) - 1.
Proof.
  intros Hv. apply valid_fields in Hv.
  destruct now as [y m d h mi sc us];
    cbn [year month day hour minute second microsecond] in Hv.
  destruct Hv as (_ & Hm & Hd & _).
  unfold days_elapsed, days_in_year; cbn [year month day].
  month_cases m; eval_months; destruct (is_leap y); lia.
Qed.

Lemma days_elapsed_mono (a b : datetime) :
  valid a = true -> valid b = true ->
  same_year_not_after a b ->
  days_elapsed a <= days_elapsed b.
Proof.
  intros Ha Hb [Hy Horder].
  apply valid_fields in Ha. apply valid_fields in Hb.
  destruct a as [y m d h mi sc us]; destruct b as [y' m' d' h' mi' sc' us'].
  cbn [year month day hour minute second microsecond] in *. subst y'.
  destruct Ha as (_ & Hm & Hd & _). destruct Hb as (_ & Hm' & Hd' & _).
  unfold days_elapsed; cbn [year month day].
  month_cases m; month_cases m'; try lia;
    eval_months; destruct (is_leap y); lia.
Qed.

Lemma target_of_days (now : datetime) :
  valid now = true ->
  (calculate_target_km now ==
   (target_km * days_elapsed now) # Z.to_pos (days_in_year (year now) - 1))%Q.
Proof.
  intros Hv. rewrite (calculate_target_km_eq now Hv).
  unfold days_in_year. destruct (is_leap (year now));
    unfold Qeq, Qmult, Qdiv, Qinv, inject_Z; cbn; lia.
Qed.

(** X16: for every date and time of day, the target lies between 0 and
    the annual target of 2000 km. *)
Theorem X16_target_within_bounds (now : datetime) :
  valid now = true ->
  (0 <= calculate_target_km now)%Q /\
  (calculate_target_km now <= inject_Z target_km)%Q.
Proof.
  intros Hv. pose proof (days_elapsed_range now Hv) as Hrange.
  rewrite (target_of_days now Hv). revert Hrange.
  unfold days_in_year, target_km. destruct (is_leap (year now));
    intros Hrange; unfold Qle, inject_Z; cbn [Qnum Qden Z.to_pos Z.sub Z.add
      Z.opp Z.pos_sub Pos.pred_double BinPos.Pos.pred_double];
    split; lia.
Qed.

Lemma X16_target_within_bounds_witness :
  (0 <= calculate_target_km (mk_datetime 2024 2 29 6 0 0 0))%Q /\
  (calculate_target_km (mk_datetime 2024 2 29 6 0 0 0)
   <= inject_Z target_km)%Q.
Proof.
  exact (X16_target_within_bounds (mk_datetime 2024 2 29 6 0 0 0) eq_refl).
Defined.

(** X17: within a year the target never goes down: a date that is not
    after another gets a target that is not greater, whatever the times of
    day. *)
Theorem X17_target_monotone (a b : datetime) :
  valid a = true -> valid b = true ->
  same_year_not_after a b ->
  (calculate_target_km a <= calculate_target_km b)%Q.
Proof.
  intros Ha Hb Horder.
  pose proof (days_elapsed_mono a b Ha Hb Horder) as Hmono.
  rewrite (target_of_days a Ha), (target_of_days b Hb).
  destruct Horder as [Hy _]. rewrite Hy.
  unfold Qle, target_km; cbn [Qnum Qden].
  apply Z.mul_le_mono_nonneg_r; lia.
Qed.

Lemma X17_target_monotone_witness :
  (calculate_target_km (mk_datetime 2026 2 28 23 0 0 0)
   <= calculate_target_km (mk_datetime 2026 3 1 0 30 0 0))%Q.
Proof.
  apply X17_target_monotone.
  - reflexivity.
  - reflexivity.
  - split; [reflexivity | ]. left. reflexivity.
Defined.

(* ------------------------------------------------------------------ *)
(** ** The stacked bar *)

(** X18: the two rows of the chart, stacked, reach the larger of the
    actual distance and the target: the bar ends at the target while the
    runner is behind, and at the actual distance once it is passed. *)
Theorem X18_stacked_bar_reaches_max (target actual : Q) :
  exists r1 r2,
    target_rows target actual = [r1; r2] /\
    segment r1 = "Actual" /\ segment r2 = "Target" /\
    (kms r1 + kms r2 == Qmax actual target)%Q.
Proof.
  eexists; eexists. split; [reflexivity | ].
  split; [reflexivity | ]. split; [reflexivity | ].
  cbn [kms]. unfold Py.max0.
  destruct (Qlt_le_dec 0 (target - actual)) as [Hlt | Hle].
  - rewrite Q.max_r.
    + ring.
    + apply Qlt_le_weak. apply (Qplus_lt_l _ _ (- actual)).
      ring_simplify. ring_simplify in Hlt.
      setoid_replace (-1 * actual + target)%Q with (target - actual)%Q by ring.
      exact Hlt.
  - rewrite Q.max_l.
    + ring.
    + apply (Qplus_le_l _ _ (- actual)).
      setoid_replace (actual + - actual)%Q with 0%Q by ring.
      exact Hle.
Qed.

(* ------------------------------------------------------------------ *)
(** ** More on every page load *)

(** X19: with an expired token and the three credentials in the config,
    when the token request gets no response, a 4xx or 5xx status, or a
    body that is not JSON, the page shows "Token refresh failed" with the
    cause and stops: no authenticated request is sent and the config is
    untouched, in memory and in the file. *)
Theorem X19_refresh_failure_stops (env : Env) (c : Config)
        (cid secret rt : string) :
  (inject_Z (Py.get (expires_at c) 0%Z) < time_time env)%Q ->
  client_id c = Some cid ->
  client_secret c = Some secret ->
  cfg_refresh_token c = Some rt ->
  oauth_token (api env) (refresh_form cid secret rt) = None \/
  (exists r,
      oauth_token (api env) (refresh_form cid secret rt) = Some r /\
      (raises_for_status (status_code r) = true \/ body r = None)) ->
  exists e,
    page_load env (Some c)
    = (Stop,
       mk_state c (Some c)
         [ StSetPageConfig "Strava — Last Activity" "wide";
           StTitle "Strava — Last Activity";
           StSpinner "Refreshing access token...";
           PostToken (refresh_form cid secret rt);
           StError "Token refresh failed: " (Some e) ]).
Proof.
  intros Hstale Hcid Hsec Hrt Hfail. apply token_is_stale_true in Hstale.
  start_page. step_with Hstale.
  cbv [refresh_token bind get_cfg item ret raise tell arrive
       raise_for_status json update_cfg save_config cfg config_toml trace].
  step_with Hcid. step_with Hsec. step_with Hrt.
  fold (refresh_form cid secret rt).
  destruct Hfail as [Hnone | (r & Hreply & [Hstatus | Hbody])].
  - step_with Hnone. eexists. reflexivity.
  - step_with Hreply. step_with Hstatus. eexists. reflexivity.
  - step_with Hreply.
    destruct (raises_for_status (status_code r)); cbv beta iota.
    + eexists. reflexivity.
    + step_with Hbody. eexists. reflexivity.
Qed.

Lemma X19_refresh_failure_stops_witness :
  exists e,
    page_load (Sample.env 500 401 [Sample.run_5k]) (Some (Sample.config 100))
    = (Stop,
       mk_state (Sample.config 100) (Some (Sample.config 100))
         [ StSetPageConfig "Strava — Last Activity" "wide";
           StTitle "Strava — Last Activity";
           StSpinner "Refreshing access token...";
           PostToken (refresh_form "12345" "secret" "refresh-0");
           StError "Token refresh failed: " (Some e) ]).
Proof.
  apply (X19_refresh_failure_stops (Sample.env 500 401 [Sample.run_5k])
           (Sample.config 100) "12345" "secret" "refresh-0").
  - reflexivity.
  - reflexivity.
  - reflexivity.
  - reflexivity.
  - right. eexists. split; [reflexivity | ]. left. reflexivity.
Defined.

(** X20: the list request never depends on the clock or on what came
    back before: whenever it is sent it asks for page 1, 30 per page, of
    the activities after 1767225600, which is 2026-01-01 00:00 UTC, also
    when the current year, which the target follows, is another one. *)
Theorem X20_list_request_is_fixed (env : Env) (file : option Config) :
  Forall asks_first_page_of_2026 (trace (snd (page_load env file))).
Proof.
  destruct file as [[cid sec rt tok exp] | ].
  - run_script.
    all: split_trace; try exact I; cbn [asks_first_page_of_2026];
      repeat split; reflexivity.
  - cbn. repeat constructor.
Qed.

(** X21: a page load never changes [client_id] or [client_secret], and
    never removes the file: afterwards the file exists and it and the dict
    in memory hold the two credentials that were loaded. *)
Theorem X21_credentials_preserved (env : Env) (c : Config) :
  let s := snd (page_load env (Some c)) in
  client_id (cfg s) = client_id c /\
  client_secret (cfg s) = client_secret c /\
  exists saved,
    config_toml s = Some saved /\
    client_id saved = client_id c /\ client_secret saved = client_secret c.
Proof.
  cbv zeta. destruct c as [cid sec rt tok exp].
  run_script.
  all: unfold set_expires_at, set_refresh_token, set_access_token in *;
    cbn [client_id client_secret] in *.
  all: split; [congruence | split; [congruence | ] ].
  all: eexists; split; [reflexivity | ];
    cbn [client_id client_secret]; split; congruence.
Qed.

(** X22: no half-drawn dashboard next to an error. If any metric was
    drawn, both requests had been sent and no error message was shown in
    that run. *)
Theorem X22_metrics_only_after_both_requests (env : Env)
        (file : option Config) :
  let tr := trace (snd (page_load env file)) in
  existsb is_metric tr = true ->
  existsb is_list_request tr = true /\
  existsb is_detail_request tr = true /\
  existsb is_error tr = false.
Proof.
  cbv zeta. destruct file as [[cid sec rt tok exp] | ].
  - run_script.
    all: intros Hmetric;
      first [ discriminate Hmetric | repeat split; reflexivity ].
  - intros Hmetric. discriminate Hmetric.
Qed.

Lemma X22_metrics_only_after_both_requests_witness :
  existsb is_list_request
    (trace (snd (page_load (Sample.env 50 200 [Sample.run_5k])
                           (Some (Sample.config 100))))) = true /\
  existsb is_detail_request
    (trace (snd (page_load (Sample.env 50 200 [Sample.run_5k])
                           (Some (Sample.config 100))))) = true /\
  existsb is_error
    (trace (snd (page_load (Sample.env 50 200 [Sample.run_5k])
                           (Some (Sample.config 100))))) = false.
Proof.
  apply (X22_metrics_only_after_both_requests
           (Sample.env 50 200 [Sample.run_5k]) (Some (Sample.config 100))).
  reflexivity.
Defined.

(* ================================================================== *)
(** * The dashboard on every page load *)

(* ------------------------------------------------------------------ *)
(** ** [main] in two halves *)

Lemma main_two_halves (env : Env) (s : state) :
  main env s = (latest <- fetch_latest env ;; draw env latest) s.
Proof.
  unfold main, fetch_latest, draw, bind, tell, ret; cbn [fst snd].
  destruct (load_phase _) as [[[] | | e] s1]; try reflexivity.
  destruct (token_phase env s1) as [[[] | | e] s2]; try reflexivity.
  destruct (fetch_phase env s2) as [[activities | | e] s3]; try reflexivity.
  destruct (latest_phase env (filter is_run activities) s3)
    as [[activity | | e] s4]; reflexivity.
Qed.

Ltac unfold_fetch :=
  unfold fetch_latest, load_phase, token_phase, fetch_phase, latest_phase,
    refresh_token, get_activities, get_activity,
    load_config, save_config, raise_for_status, json, arrive, item,
    try_except, bind, ret, raise, st_stop, tell, get_cfg, set_cfg, update_cfg,
    Pandas.iloc0 in *.

Ltac run_fetch :=
  unfold_fetch; cbn [cfg config_toml trace fst snd];
  repeat (split_script; cbn [cfg config_toml trace fst snd]).

(** Membership in a trace written out event by event. *)
Ltac scan_trace H :=
  simpl in H;
  repeat (destruct H as [H | H]; [try discriminate H | ]);
  try contradiction.

(** The first half. If it ends with the runs and the latest run, both
    requests were answered, the latest run is the first run of the list,
    and so far the trace holds nothing but the page header, the refresh
    and the two requests. If it ends otherwise, nothing of the dashboard
    was drawn, and a detail request that was sent was not answered. *)
Lemma fetch_latest_spec (env : Env) (file : option Config) :
  match fetch_latest env
          (mk_state (mk_config None None None None None) file []) with
  | (Ret (runs, activity), s0) =>
      exists token activities latest rest,
        list_answer env token activities /\
        filter is_run activities = latest :: rest /\
        runs = latest :: rest /\
        detail_answer env (s_id latest) token activity /\
        forallb is_prelude (trace s0) = true /\
        (forall id tok,
            In (GetActivity id tok) (trace s0) ->
            id = s_id latest /\ tok = token)
  | (_, s') =>
      forallb (fun e => is_prelude e || is_message e) (trace s') = true /\
      (forall id tok activity,
          In (GetActivity id tok) (trace s') ->
          ~ detail_answer env id tok activity)
  end.
Proof.
  destruct file as [[cid sec rt tok exp] | ].
  - run_fetch.
    all: try congruence.
    all: try (split; [reflexivity | ];
              intros id tok' activity Hin [r' (Hr' & Hs' & Hb')];
              scan_trace Hin;
              try (injection Hin as <- <-); congruence).
    all: match goal with
         | H : match filter is_run ?l with _ => _ end = Some _ |- _ =>
             destruct (filter is_run l) eqn:Hruns; [discriminate | ];
             injection H as ->
         end.
    all: repeat match goal with
                | H : Some _ = Some _ |- _ => injection H as H; try subst
                end.
    all: eexists; eexists; eexists; eexists.
    all: split; [eexists; repeat split; eassumption | ].
    all: split; [eassumption | ].
    all: split; [try rewrite Hruns; reflexivity | ].
    all: split; [eexists; repeat split; eassumption | ].
    all: split; [reflexivity | ].
    all: intros id tok' Hin; scan_trace Hin; injection Hin as <- <-;
      split; reflexivity.
  - cbn. split; [reflexivity | ].
    intros id tok activity Hin. scan_trace Hin.
Qed.


(* ------------------------------------------------------------------ *)
(** ** The second half *)

(** What the second half does, by what sits under [map]. *)
Lemma draw_spec (env : Env) (runs : list Summary) (activity : Activity)
      (c : Config) (f : option Config) (pre : list event) :
  let stats := stats_section env runs activity in
  let run := draw env (runs, activity) (mk_state c f pre) in
  match a_map activity with
  | Some MapNull =>
      run = (Raise AttributeError, mk_state c f (pre ++ stats))
  | Some (MapObject m) =>
      if Py.truthy_str (polyline m) then
        let p := Py.get (polyline m) "" in
        match polyline_decode env p with
        | Some coords =>
            run = (Ret tt,
                   mk_state c f (pre ++ stats ++ route_drawn p coords
                                     ++ raw_section activity))
        | None =>
            run = (Raise DecodeError,
                   mk_state c f (pre ++ stats ++ [PolylineDecode p]))
        end
      else
        run = (Ret tt,
               mk_state c f (pre ++ stats ++ [no_route_notice]
                                 ++ raw_section activity))
  | None =>
      run = (Ret tt,
             mk_state c f (pre ++ stats ++ [no_route_notice]
                               ++ raw_section activity))
  end.
Proof.
  cbv zeta.
  unfold draw, route_section, get_route_poly, decode, bind, tell, ret, raise;
    cbn [fst snd cfg config_toml trace].
  destruct (a_map activity) as [[ | m] | ]; cbn [Py.get polyline].
  - reflexivity.
  - destruct (Py.truthy_str (polyline m)).
    + cbn [cfg config_toml trace].
      destruct (polyline_decode env (Py.get (polyline m) "")).
      * cbn [cfg config_toml trace]. unfold route_drawn.
        rewrite <- !app_assoc. reflexivity.
      * rewrite <- !app_assoc. reflexivity.
    + cbn [cfg config_toml trace]. rewrite <- !app_assoc. reflexivity.
  - cbn [Py.truthy_str cfg config_toml trace].
    rewrite <- !app_assoc. reflexivity.
Qed.

(** In every case the trace is what came before, then the metrics and the
    chart, then events of the route and the raw JSON only. *)
Lemma draw_trace (env : Env) (runs : list Summary) (activity : Activity)
      (c : Config) (f : option Config) (pre : list event) :
  exists post,
    trace (snd (draw env (runs, activity) (mk_state c f pre)))
    = (pre ++ stats_section env runs activity ++ post)%list /\
    forallb is_tail post = true.
Proof.
  pose proof (draw_spec env runs activity c f pre) as H. cbv zeta in H.
  destruct (a_map activity) as [[ | m] | ].
  - rewrite H. exists []. rewrite app_nil_r. split; reflexivity.
  - destruct (Py.truthy_str (polyline m)).
    + destruct (polyline_decode env (Py.get (polyline m) "")); rewrite H;
        eexists; split; reflexivity.
    + rewrite H. eexists; split; reflexivity.
  - rewrite H. eexists; split; reflexivity.
Qed.

Lemma forallb_In {A : Type} (p : A -> bool) (l : list A) (x : A) :
  forallb p l = true -> In x l -> p x = true.
Proof. intros H Hin. rewrite forallb_forall in H. exact (H x Hin). Qed.

Lemma stats_section_kinds (env : Env) (runs : list Summary)
      (activity : Activity) :
  forallb (fun e => match e with
                    | StSubheader _ | StColumns _ | StMetric _ _
                    | StAltairChart _ => true
                    | _ => false
                    end)
          (stats_section env runs activity) = true.
Proof. reflexivity. Qed.

Lemma detail_answer_unique (env : Env) (id : Z) (token : string)
      (a b : Activity) :
  detail_answer env id token a -> detail_answer env id token b -> a = b.
Proof.
  intros (r & Hr & _ & Hb) (r' & Hr' & _ & Hb'). congruence.
Qed.

Lemma list_answer_unique (env : Env) (token : string)
      (a b : list Summary) :
  list_answer env token a -> list_answer env token b -> a = b.
Proof.
  intros (r & Hr & _ & Hb) (r' & Hr' & _ & Hb'). congruence.
Qed.

Lemma page_load_two_halves (env : Env) (file : option Config) :
  page_load env file
  = match fetch_latest env
            (mk_state (mk_config None None None None None) file []) with
    | (Ret latest, s0) => draw env latest s0
    | (Stop, s') => (Stop, s')
    | (Raise e, s') => (Raise e, s')
    end.
Proof. unfold page_load. rewrite main_two_halves. reflexivity. Qed.

(** The two halves together: once the detail request was sent and
    answered, the list request had been answered too, the activity is the
    first run of the list, and the run is the second half started after
    the page header, the refresh and the two requests. *)
Lemma page_load_draws (env : Env) (file : option Config) (id : Z)
      (token : string) (activity : Activity) :
  In (GetActivity id token) (trace (snd (page_load env file))) ->
  detail_answer env id token activity ->
  exists activities latest rest c f pre,
    list_answer env token activities /\
    filter is_run activities = latest :: rest /\
    id = s_id latest /\
    forallb is_prelude pre = true /\
    page_load env file
    = draw env (latest :: rest, activity) (mk_state c f pre).
Proof.
  rewrite page_load_two_halves.
  pose proof (fetch_latest_spec env file) as Hspec.
  destruct (fetch_latest env _) as [[[runs act] | | e] s0].
  - destruct Hspec
      as (token' & activities & latest & rest & Hlist & Hruns & -> & Hdetail
          & Hpre & Honly).
    destruct s0 as [c f pre]. cbn [trace] in Hpre, Honly.
    intros Hin Hanswer.
    destruct (draw_trace env (latest :: rest) act c f pre)
      as (post & Htrace & Hpost).
    rewrite Htrace in Hin.
    assert (Hin' : In (GetActivity id token) pre).
    { apply in_app_or in Hin. destruct Hin as [Hin | Hin]; [exact Hin | ].
      apply in_app_or in Hin. destruct Hin as [Hin | Hin].
      - pose proof (forallb_In _ _ _ (stats_section_kinds env _ _) Hin) as Hk.
        discriminate Hk.
      - pose proof (forallb_In _ _ _ Hpost Hin) as Hk. discriminate Hk. }
    destruct (Honly id token Hin') as [-> ->].
    rewrite (detail_answer_unique env _ _ _ _ Hanswer Hdetail).
    exists activities, latest, rest, c, f, pre.
    repeat split; assumption || reflexivity.
  - destruct Hspec as [_ Hnone]. cbn [snd]. intros Hin Hanswer.
    exfalso. exact (Hnone id token activity Hin Hanswer).
  - destruct Hspec as [_ Hnone]. cbn [snd]. intros Hin Hanswer.
    exfalso. exact (Hnone id token activity Hin Hanswer).
Qed.

(** The trace of a page load whose detail request was answered. *)
Lemma page_load_trace (env : Env) (file : option Config) (id : Z)
      (token : string) (activity : Activity) :
  In (GetActivity id token) (trace (snd (page_load env file))) ->
  detail_answer env id token activity ->
  exists activities latest rest pre post,
    list_answer env token activities /\
    filter is_run activities = latest :: rest /\
    id = s_id latest /\
    forallb is_prelude pre = true /\
    forallb is_tail post = true /\
    trace (snd (page_load env file))
    = (pre ++ stats_section env (latest :: rest) activity ++ post)%list.
Proof.
  intros Hin Hanswer.
  destruct (page_load_draws env file id token activity Hin Hanswer)
    as (activities & latest & rest & c & f & pre & Hlist & Hruns & Hid & Hpre
        & Hrun).
  destruct (draw_trace env (latest :: rest) activity c f pre)
    as (post & Htrace & Hpost).
  exists activities, latest, rest, pre, post.
  rewrite Hrun. repeat split; assumption.
Qed.

(** Looking for an event of one kind in such a trace: it is not in the
    prelude and not in the tail when these kinds exclude it. *)
Lemma In_middle (pre mid post : list event) (e : event) :
  forallb is_prelude pre = true ->
  forallb is_tail post = true ->
  is_prelude e = false -> is_tail e = false ->
  In e (pre ++ mid ++ post) -> In e mid.
Proof.
  intros Hpre Hpost He1 He2 Hin.
  apply in_app_or in Hin. destruct Hin as [Hin | Hin].
  - rewrite (forallb_In _ _ _ Hpre Hin) in He1. discriminate He1.
  - apply in_app_or in Hin. destruct Hin as [Hin | Hin]; [exact Hin | ].
    rewrite (forallb_In _ _ _ Hpost Hin) in He2. discriminate He2.
Qed.

Lemma In_mid (pre mid post : list event) (e : event) :
  In e mid -> In e (pre ++ mid ++ post).
Proof.
  intros Hin. apply in_or_app; right. apply in_or_app; left. exact Hin.
Qed.

(* ------------------------------------------------------------------ *)
(** ** Remaining distance to the target *)

(** C4: on every page load whose detail request was answered, so that
    the dashboard is drawn, exactly one kind of chart is in the trace: its
    Actual row is the distance of the runs of the fetched list in km, and
    its Target row is [max(0, target_today - actual)], never negative and
    zero as soon as the actual distance reaches the target. *)
Theorem C4_remaining_to_target (env : Env) (file : option Config) (id : Z)
        (token : string) (activity : Activity) :
  In (GetActivity id token) (trace (snd (page_load env file))) ->
  detail_answer env id token activity ->
  exists activities,
    list_answer env token activities /\
    let actual := (total s_distance (runs_of activities) / 1000)%Q in
    let target := calculate_target_km (datetime_now env) in
    exists remaining : Q,
      (forall rows,
          In (StAltairChart rows) (trace (snd (page_load env file))) <->
          rows = [ mk_row "YTD" "Actual" actual;
                   mk_row "YTD" "Target" remaining ]) /\
      (remaining == Qmax 0 (target - actual))%Q /\
      (0 <= remaining)%Q /\
      ((target <= actual)%Q -> (remaining == 0)%Q).
Proof.
  intros Hin Hanswer.
  destruct (page_load_trace env file id token activity Hin Hanswer)
    as (activities & latest & rest & pre & post & Hlist & Hruns & _ & Hpre
        & Hpost & Htrace).
  exists activities. split; [exact Hlist | ]. cbv zeta.
  set (actual := (total s_distance (runs_of activities) / 1000)%Q).
  set (target := calculate_target_km (datetime_now env)).
  exists (Py.max0 (target - actual)%Q).
  assert (Hstats :
            forall rows,
              In (StAltairChart rows)
                 (stats_section env (latest :: rest) activity) <->
              rows = target_rows target actual).
  { intros rows. unfold stats_section.
    rewrite sum_map_total, <- Hruns, is_run_runs_of. fold actual target.
    split.
    - intros H. scan_trace H. injection H as <-. reflexivity.
    - intros ->. apply in_or_app; right. apply in_or_app; right.
      left. reflexivity. }
  split; [ | split; [apply max0_Qmax | split; [apply max0_nonneg | ] ] ].
  - intros rows. rewrite Htrace, <- (Hstats rows). split.
    + apply In_middle; trivial.
    + apply In_mid.
  - intros Hle. apply max0_floor.
    apply (Qplus_le_l _ _ actual). ring_simplify. exact Hle.
Qed.

(** Two page loads on the morning of 2 July 2026, when the target is
    1000 km: with 200 km run the Target row shows 800, with 1200 km run it
    shows 0. *)
Lemma C4_remaining_to_target_witness :
  (exists actual remaining,
      In (StAltairChart [ mk_row "YTD" "Actual" actual;
                          mk_row "YTD" "Target" remaining ])
         (trace (snd (page_load
                        (Sample.env_with Sample.morning_jul_2
                           [Sample.short_run] Sample.manual_run)
                        (Some (Sample.config 100))))) /\
      (actual == 200)%Q /\ (remaining == 800)%Q) /\
  (exists actual remaining,
      In (StAltairChart [ mk_row "YTD" "Actual" actual;
                          mk_row "YTD" "Target" remaining ])
         (trace (snd (page_load
                        (Sample.env_with Sample.morning_jul_2
                           [Sample.long_run] Sample.manual_run)
                        (Some (Sample.config 100))))) /\
      (actual == 1200)%Q /\ (remaining == 0)%Q).
Proof.
  split.
  - destruct (C4_remaining_to_target
                (Sample.env_with Sample.morning_jul_2 [Sample.short_run]
                                 Sample.manual_run)
                (Some (Sample.config 100)) 15 "access-0" Sample.manual_run)
      as (activities & (r & Hr & _ & Hb) & remaining & Hrows & Hmax & _ & _).
    + do 3 right. left. reflexivity.
    + eexists. repeat split; reflexivity.
    + injection Hr as <-. injection Hb as <-.
      eexists. exists remaining. split; [apply Hrows; reflexivity | ].
      split; [reflexivity | ]. rewrite Hmax. reflexivity.
  - destruct (C4_remaining_to_target
                (Sample.env_with Sample.morning_jul_2 [Sample.long_run]
                                 Sample.manual_run)
                (Some (Sample.config 100)) 14 "access-0" Sample.manual_run)
      as (activities & (r & Hr & _ & Hb) & remaining & Hrows & Hmax & _ & _).
    + do 3 right. left. reflexivity.
    + eexists. repeat split; reflexivity.
    + injection Hr as <-. injection Hb as <-.
      eexists. exists remaining. split; [apply Hrows; reflexivity | ].
      split; [reflexivity | ]. rewrite Hmax. reflexivity.
Defined.

(* ------------------------------------------------------------------ *)
(** ** Aggregate run statistics *)

Lemma ytd_stats_nonempty (row : Summary) (rows : list Summary) :
  let runs := row :: rows in
  ytd_stats runs
  = [ StSubheader "Year-to-date Running stats";
      StColumns 4;
      StMetric "Distance (km)"
        (FixedPoint 2 (Some (total s_distance runs / 1000)%Q));
      StMetric "Moving time (min)"
        (FixedPoint 0 (Some (total s_moving_time runs / 60)%Q));
      StMetric "Avg pace (km/h)"
        (FixedPoint 2
           (Some (total s_average_speed runs / inject_Z (count runs)
                  * (36 # 10))%Q));
      StMetric "Total Activities" (Text (Py.digits (count runs))) ].
Proof.
  intros runs. unfold ytd_stats, runs.
  rewrite mean_map_nonempty, !sum_map_total. reflexivity.
Qed.

(** C5: on every page load whose detail request was answered, so that
    the dashboard is drawn, the year-to-date block shows, over the rows of
    type "Run" of the fetched list and over these only: the sum of
    [distance] over 1000 with two decimals, the sum of [moving_time] over
    60 with none, the mean of [average_speed] times 3.6 with two decimals,
    and the number of runs; no other "Avg pace (km/h)" or
    "Total Activities" metric is on the page. *)
Theorem C5_aggregate_run_stats (env : Env) (file : option Config) (id : Z)
        (token : string) (activity : Activity) :
  In (GetActivity id token) (trace (snd (page_load env file))) ->
  detail_answer env id token activity ->
  exists activities,
    list_answer env token activities /\
    let runs := runs_of activities in
    let tr := trace (snd (page_load env file)) in
    let pace :=
      FixedPoint 2 (Some (total s_average_speed runs / inject_Z (count runs)
                          * (36 # 10))%Q) in
    let number := Text (Py.digits (count runs)) in
    occurs_in
      [ StSubheader "Year-to-date Running stats";
        StColumns 4;
        StMetric "Distance (km)"
          (FixedPoint 2 (Some (total s_distance runs / 1000)%Q));
        StMetric "Moving time (min)"
          (FixedPoint 0 (Some (total s_moving_time runs / 60)%Q));
        StMetric "Avg pace (km/h)" pace;
        StMetric "Total Activities" number ] tr /\
    (forall v, In (StMetric "Avg pace (km/h)" v) tr -> v = pace) /\
    (forall v, In (StMetric "Total Activities" v) tr -> v = number).
Proof.
  intros Hin Hanswer.
  destruct (page_load_trace env file id token activity Hin Hanswer)
    as (activities & latest & rest & pre & post & Hlist & Hruns & _ & Hpre
        & Hpost & Htrace).
  exists activities. split; [exact Hlist | ]. cbv zeta.
  rewrite Htrace, <- is_run_runs_of, Hruns.
  pose proof (ytd_stats_nonempty latest rest) as Hytd. cbv zeta in Hytd.
  split; [ | split].
  - rewrite <- Hytd. unfold stats_section.
    exists pre. eexists. rewrite <- !app_assoc. reflexivity.
  - intros v Hv. apply In_middle in Hv; trivial.
    unfold stats_section in Hv. rewrite Hytd in Hv.
    scan_trace Hv. injection Hv as <-. reflexivity.
  - intros v Hv. apply In_middle in Hv; trivial.
    unfold stats_section in Hv. rewrite Hytd in Hv.
    scan_trace Hv. injection Hv as <-. reflexivity.
Qed.

(** The example of the claim: a list with two runs of 5000 m and 10000 m
    (and a ride, which must not count) shows 15 km with two decimals and 2
    activities. *)
Lemma C5_aggregate_run_stats_witness :
  let tr :=
    trace (snd (page_load
                  (Sample.env 50 200
                     [Sample.run_5k; Sample.ride_20k; Sample.run_10k])
                  (Some (Sample.config 100)))) in
  (exists km, In (StMetric "Distance (km)" (FixedPoint 2 (Some km))) tr /\
              (km == 15)%Q) /\
  In (StMetric "Total Activities" (Text "2")) tr.
Proof.
  intros tr.
  destruct (C5_aggregate_run_stats
              (Sample.env 50 200
                 [Sample.run_5k; Sample.ride_20k; Sample.run_10k])
              (Some (Sample.config 100)) 11 "access-0" Sample.manual_run)
    as (activities & (r & Hr & _ & Hb) & Hblock & _ & _).
  - do 3 right. left. reflexivity.
  - eexists. repeat split; reflexivity.
  - injection Hr as <-. injection Hb as <-. cbv zeta in Hblock. split.
    + eexists. split.
      * apply (occurs_in_In _ _ _ Hblock). do 2 right. left. reflexivity.
      * reflexivity.
    + apply (occurs_in_In _ _ _ Hblock). do 5 right. left. reflexivity.
Defined.

(* ------------------------------------------------------------------ *)
(** ** Average speed of the latest run *)

(** C7: on every page load whose detail request was answered, the page
    shows one "Avg speed (km/h)" metric and no other. When [average_speed]
    is missing or zero, no km/h value is derived and the metric is the text
    "N/A", not a number; when it is present and not zero, the derived value
    is [average_speed * 3.6], shown with two decimals. *)
Theorem C7_average_speed (env : Env) (file : option Config) (id : Z)
        (token : string) (activity : Activity) :
  In (GetActivity id token) (trace (snd (page_load env file))) ->
  detail_answer env id token activity ->
  let tr := trace (snd (page_load env file)) in
  (a_average_speed activity = None \/
   (exists x, a_average_speed activity = Some x /\ (x == 0)%Q) ->
   avg_kmh activity = None /\
   forall v, In (StMetric "Avg speed (km/h)" v) tr <-> v = Text "N/A") /\
  (forall x,
     a_average_speed activity = Some x -> ~ (x == 0)%Q ->
     avg_kmh activity = Some (x * (36 # 10))%Q /\
     forall v,
       In (StMetric "Avg speed (km/h)" v) tr <->
       v = FixedPoint 2 (Some (x * (36 # 10))%Q)).
Proof.
  intros Hin Hanswer tr.
  destruct (page_load_trace env file id token activity Hin Hanswer)
    as (activities & latest & rest & pre & post & _ & _ & _ & Hpre
        & Hpost & Htrace).
  assert (Hshown :
            forall v, In (StMetric "Avg speed (km/h)" v) tr <->
                      v = avg_speed_text activity).
  { intros v. unfold tr. rewrite Htrace. split.
    - intros Hv. apply In_middle in Hv; trivial.
      unfold stats_section, ytd_stats, latest_summary in Hv.
      scan_trace Hv. injection Hv as <-. reflexivity.
    - intros ->. apply In_mid. unfold stats_section.
      apply in_or_app; right. apply in_or_app; left.
      unfold latest_summary. do 5 right. left. reflexivity. }
  split.
  - intros Habsent.
    assert (Hkmh : avg_kmh activity = None).
    { unfold avg_kmh. destruct Habsent as [-> | (x & -> & Hx)].
      - reflexivity.
      - cbn [Py.truthy_opt]. rewrite (truthy_false x Hx). reflexivity. }
    split; [exact Hkmh | ].
    intros v. rewrite Hshown. unfold avg_speed_text. rewrite Hkmh.
    reflexivity.
  - intros x Hsome Hx.
    assert (Hkmh : avg_kmh activity = Some (kmh x)).
    { unfold avg_kmh. rewrite Hsome. cbn [Py.truthy_opt option_map].
      rewrite (truthy_true x Hx). reflexivity. }
    split; [exact Hkmh | ].
    intros v. rewrite Hshown. unfold avg_speed_text. rewrite Hkmh.
    cbn [Py.truthy_opt]. rewrite (truthy_true (kmh x) (kmh_nonzero x Hx)).
    reflexivity.
Qed.

Lemma C7_average_speed_witness :
  In (StMetric "Avg speed (km/h)" (Text "N/A"))
     (trace (snd (page_load
                    (Sample.env_with Sample.noon_jan_2 [Sample.run_5k]
                                     Sample.manual_run)
                    (Some (Sample.config 100))))) /\
  In (StMetric "Avg speed (km/h)"
               (FixedPoint 2 (Some ((3 # 1) * (36 # 10))%Q)))
     (trace (snd (page_load
                    (Sample.env_with Sample.noon_jan_2 [Sample.run_5k]
                                     Sample.tracked_run)
                    (Some (Sample.config 100))))).
Proof.
  split.
  - apply (proj1 (C7_average_speed
                    (Sample.env_with Sample.noon_jan_2 [Sample.run_5k]
                                     Sample.manual_run)
                    (Some (Sample.config 100)) 11 "access-0"
                    Sample.manual_run
                    ltac:(do 3 right; left; reflexivity)
                    ltac:(eexists; repeat split; reflexivity))).
    + left. reflexivity.
    + reflexivity.
  - apply (proj2 (C7_average_speed
                    (Sample.env_with Sample.noon_jan_2 [Sample.run_5k]
                                     Sample.tracked_run)
                    (Some (Sample.config 100)) 11 "access-0"
                    Sample.tracked_run
                    ltac:(do 3 right; left; reflexivity)
                    ltac:(eexists; repeat split; reflexivity))
                 (3 # 1) eq_refl).
    + discriminate.
    + reflexivity.
Defined.

(* ------------------------------------------------------------------ *)
(** ** Route *)

Lemma existsb_none (p q : event -> bool) (l : list event) :
  forallb p l = true ->
  (forall e, p e = true -> q e = false) ->
  existsb q l = false.
Proof.
  intros Hall Hpq. induction l as [ | e l IH]; [reflexivity | ].
  cbn [forallb] in Hall. apply andb_true_iff in Hall.
  destruct Hall as [He Hl]. cbn [existsb].
  rewrite (Hpq e He), (IH Hl). reflexivity.
Qed.





Lemma filter_none (p q : event -> bool) (l : list event) :
  forallb p l = true ->
  (forall e, p e = true -> q e = false) ->
  filter q l = [].
Proof.
  intros Hall Hpq. induction l as [ | e l IH]; [reflexivity | ].
  cbn [forallb] in Hall. apply andb_true_iff in Hall.
  destruct Hall as [He Hl].
  change (filter q (e :: l)) with (if q e then e :: filter q l else filter q l).
  rewrite (Hpq e He), (IH Hl). reflexivity.
Qed.

Lemma last_event_app (tr : list event) (e : event) :
  last_event (tr ++ [e]) = Some e.
Proof. unfold last_event. rewrite rev_app_distr. reflexivity. Qed.

Lemma mean_none_iff_empty {A : Type} (f : A -> Q) (l : list A) :
  Pandas.mean (map f l) = None <-> l = [].
Proof.
  destruct l as [ | x l]; cbn [map Pandas.mean]; split; intros H;
    try reflexivity; discriminate H.
Qed.

(** X9: on every page load whose detail request was answered with an
    activity whose map object carries a non-empty polyline, the decoder is
    called exactly once, on that string, and the notice of a missing route
    is not shown. If the decoder returns a path, the page load completes:
    after the chart it draws the Route header, the map and the deck over
    that path, centred on the mean latitude and longitude, which are NaN
    exactly when the path is empty, then the raw JSON, and no other map
    or deck. If the decoder raises, the exception leaves [main] right
    after the call: no map, no deck and no raw JSON are drawn. *)
Theorem X9_route_present (env : Env) (file : option Config) (id : Z)
        (token : string) (activity : Activity) (m : PolylineMap)
        (ch : ascii) (tail : string) :
  In (GetActivity id token) (trace (snd (page_load env file))) ->
  detail_answer env id token activity ->
  a_map activity = Some (MapObject m) ->
  polyline m = Some (String ch tail) ->
  let p := String ch tail in
  let tr := trace (snd (page_load env file)) in
  count_events is_decode tr = 1%nat /\
  In (PolylineDecode p) tr /\
  ~ In no_route_notice tr /\
  match polyline_decode env p with
  | Some coords =>
      fst (page_load env file) = Ret tt /\
      (exists before,
          tr = (before ++ route_drawn p coords ++ raw_section activity)%list /\
          existsb is_route_drawing before = false) /\
      (Pandas.mean (map fst coords) = None <-> coords = []) /\
      (Pandas.mean (map snd coords) = None <-> coords = [])
  | None =>
      fst (page_load env file) = Raise DecodeError /\
      last_event tr = Some (PolylineDecode p) /\
      existsb is_route_drawing tr = false /\
      existsb is_raw_json tr = false
  end.
Proof.
  intros Hin Hanswer Hmap Hpoly p tr.
  destruct (page_load_draws env file id token activity Hin Hanswer)
    as (activities & latest & rest & c & f & pre & _ & _ & _ & Hpre & Hrun).
  pose proof (draw_spec env (latest :: rest) activity c f pre) as Hspec.
  cbv zeta in Hspec. rewrite Hmap, Hpoly in Hspec.
  cbn [Py.truthy_str Py.get] in Hspec. fold p in Hspec.
  unfold tr. rewrite Hrun. clear tr Hin Hrun.
  set (stats := stats_section env (latest :: rest) activity) in *.
  assert (Hstats : forallb (fun e => match e with
                                     | StSubheader _ | StColumns _
                                     | StMetric _ _ | StAltairChart _ => true
                                     | _ => false
                                     end) stats = true)
    by apply stats_section_kinds.
  assert (Hpre_decode : filter is_decode pre = [])
    by (apply (filter_none _ _ _ Hpre); intros []; discriminate || reflexivity).
  assert (Hstats_decode : filter is_decode stats = [])
    by (apply (filter_none _ _ _ Hstats);
        intros []; discriminate || reflexivity).
  assert (Hpre_route : existsb is_route_drawing pre = false)
    by (apply (existsb_none _ _ _ Hpre);
        intros []; discriminate || reflexivity).
  assert (Hstats_route : existsb is_route_drawing stats = false)
    by (apply (existsb_none _ _ _ Hstats);
        intros []; discriminate || reflexivity).
  assert (Hpre_json : existsb is_raw_json pre = false)
    by (apply (existsb_none _ _ _ Hpre);
        intros []; discriminate || reflexivity).
  assert (Hstats_json : existsb is_raw_json stats = false)
    by (apply (existsb_none _ _ _ Hstats);
        intros []; discriminate || reflexivity).
  assert (Hnotice :
            forall post,
              ~ In no_route_notice post ->
              ~ In no_route_notice (pre ++ stats ++ post)).
  { intros post Hpost H. apply in_app_or in H. destruct H as [H | H].
    - pose proof (forallb_In _ _ _ Hpre H) as Hk. discriminate Hk.
    - apply in_app_or in H. destruct H as [H | H]; [ | exact (Hpost H)].
      pose proof (forallb_In _ _ _ Hstats H) as Hk. discriminate Hk. }
  destruct (polyline_decode env p) as [coords | ]; rewrite Hspec;
    cbn [fst snd trace]; unfold count_events;
    rewrite !filter_app, Hpre_decode, Hstats_decode.
  - split; [reflexivity | ].
    split; [apply in_or_app; right; apply in_or_app; right; left;
            reflexivity | ].
    split.
    { apply Hnotice. unfold route_drawn, raw_section, no_route_notice.
      intros H. scan_trace H. }
    split; [reflexivity | ].
    split.
    { exists (pre ++ stats)%list. rewrite <- app_assoc.
      split; [reflexivity | ].
      rewrite existsb_app, Hpre_route, Hstats_route. reflexivity. }
    split; apply mean_none_iff_empty.
  - split; [reflexivity | ].
    split; [apply in_or_app; right; apply in_or_app; right; left;
            reflexivity | ].
    split.
    { apply Hnotice. unfold no_route_notice. intros H. scan_trace H. }
    split; [reflexivity | ].
    split; [rewrite app_assoc; apply last_event_app | ].
    rewrite !existsb_app, Hpre_route, Hstats_route, Hpre_json, Hstats_json.
    split; reflexivity.
Qed.

(** The decoder's answer for "_p~iF~ps|U_ulLnnqC" is the path of two
    points (38.5, -120.2), (40.7, -120.95); the deck is centred on
    (39.6, -120.575). *)
Lemma X9_route_present_witness :
  let run :=
    page_load (Sample.env_with Sample.noon_jan_2 [Sample.run_5k]
                               Sample.tracked_run)
              (Some (Sample.config 100)) in
  let path := [ (385 # 10, - (1202 # 10)); (407 # 10, - (12095 # 100)) ]%Q in
  fst run = Ret tt /\
  count_events is_decode (trace (snd run)) = 1%nat /\
  (exists before latitude longitude,
      trace (snd run)
      = (before
           ++ [ PolylineDecode "_p~iF~ps|U_ulLnnqC"; StSubheader "Route";
                StMap path;
                StPydeckChart path (Some latitude) (Some longitude) ]
           ++ raw_section Sample.tracked_run)%list /\
      (latitude == 396 # 10)%Q /\ (longitude == - (120575 # 1000))%Q).
Proof.
  cbv zeta.
  pose proof (X9_route_present
                (Sample.env_with Sample.noon_jan_2 [Sample.run_5k]
                                 Sample.tracked_run)
                (Some (Sample.config 100)) 11 "access-0" Sample.tracked_run
                (mk_map (Some "_p~iF~ps|U_ulLnnqC")) "_"%char
                "p~iF~ps|U_ulLnnqC"
                ltac:(do 3 right; left; reflexivity)
                ltac:(eexists; repeat split; reflexivity)
                eq_refl eq_refl) as H.
  cbv zeta in H. destruct H as (Hcount & _ & _ & H).
  change (polyline_decode _ _)
    with (Some [ (385 # 10, - (1202 # 10)); (407 # 10, - (12095 # 100)) ]%Q)
    in H.
  destruct H as (Hret & (before & Htrace & _) & _).
  split; [exact Hret | ]. split; [exact Hcount | ].
  exists before. eexists. eexists. split; [exact Htrace | ].
  split; reflexivity.
Defined.

(* ------------------------------------------------------------------ *)
(** ** How a page load ends *)

(** When the first half stops, the last thing drawn is a message. *)
Lemma fetch_latest_stops (env : Env) (file : option Config) :
  match fetch_latest env
          (mk_state (mk_config None None None None None) file []) with
  | (Stop, s') => option_map is_message (last_event (trace s')) = Some true
  | _ => True
  end.
Proof.
  destruct file as [[cid sec rt tok exp] | ].
  - run_fetch.
    all: try congruence.
    all: first [exact I | reflexivity].
  - reflexivity.
Qed.

(** X14: how a page load can end. If it returns, the last thing drawn is
    the raw JSON. If it stops, the last thing drawn is an error or info
    message. *)
Theorem X14_page_load_outcomes (env : Env) (file : option Config) :
  let s := snd (page_load env file) in
  match fst (page_load env file) with
  | Ret _ => option_map is_raw_json (last_event (trace s)) = Some true
  | Stop => option_map is_message (last_event (trace s)) = Some true
  | Raise _ => True
  end.
Proof.
  cbv zeta. rewrite page_load_two_halves.
  pose proof (fetch_latest_stops env file) as Hstop.
  destruct (fetch_latest env _) as [[[runs activity] | | e] s0].
  - destruct s0 as [c f pre].
    pose proof (draw_spec env runs activity c f pre) as Hspec.
    cbv zeta in Hspec.
    assert (Hlast :
              forall tr,
                option_map is_raw_json
                  (last_event (tr ++ raw_section activity)) = Some true).
    { intros tr. unfold raw_section.
      change [StExpander "Raw activity JSON"; StJson activity]
        with ([StExpander "Raw activity JSON"] ++ [StJson activity])%list.
      rewrite app_assoc, last_event_app. reflexivity. }
    destruct (a_map activity) as [[ | m] | ].
    + rewrite Hspec. exact I.
    + destruct (Py.truthy_str (polyline m)).
      * destruct (polyline_decode env _); rewrite Hspec; [ | exact I].
        cbn [fst snd trace]. rewrite !app_assoc. apply Hlast.
      * rewrite Hspec. cbn [fst snd trace]. rewrite !app_assoc. apply Hlast.
    + rewrite Hspec. cbn [fst snd trace]. rewrite !app_assoc. apply Hlast.
  - exact Hstop.
  - exact I.
Qed.

(* ------------------------------------------------------------------ *)
(** ** Missing fields of the latest run *)

(** X23: the fields of the detail record are read with defaults. On every
    page load whose detail request was answered, the block of the latest
    run is drawn and the chart follows it: the header, the title, four
    columns and the four metrics. The title is the activity's [name],
    "Activity" without one; the distance is [distance] / 1000 at two
    decimals, 0 without one; the moving time is [moving_time] / 60 at no
    decimals, 0 without one; the elevation is [total_elevation_gain] at no
    decimals, 0 without one. None of these is an error: whichever of
    these fields are missing, the page load completes when the activity
    has no [map] key or a map object without a polyline string. *)
Theorem X23_latest_summary_defaults (env : Env) (file : option Config)
        (id : Z) (token : string) (activity : Activity) :
  In (GetActivity id token) (trace (snd (page_load env file))) ->
  detail_answer env id token activity ->
  (exists title distance moving speed elev rows,
      occurs_in
        [ StSubheader "Latest Run Summary"; StSubheader title; StColumns 4;
          StMetric "Distance (km)" (FixedPoint 2 (Some distance));
          StMetric "Moving time (min)" (FixedPoint 0 (Some moving));
          StMetric "Avg speed (km/h)" speed;
          StMetric "Elevation (m)" (FixedPoint 0 (Some elev));
          StAltairChart rows ]
        (trace (snd (page_load env file))) /\
      match a_name activity with
      | Some x => title = x
      | None => title = "Activity"
      end /\
      match a_distance activity with
      | Some x => (distance == x / 1000)%Q
      | None => (distance == 0)%Q
      end /\
      match a_moving_time activity with
      | Some x => (moving == x / 60)%Q
      | None => (moving == 0)%Q
      end /\
      match a_total_elevation_gain activity with
      | Some x => (elev == x)%Q
      | None => (elev == 0)%Q
      end) /\
  (no_polyline activity -> fst (page_load env file) = Ret tt).
Proof.
  intros Hin Hanswer.
  destruct (page_load_draws env file id token activity Hin Hanswer)
    as (activities & latest & rest & c & f & pre & _ & _ & _ & Hpre & Hrun).
  split.
  - destruct (draw_trace env (latest :: rest) activity c f pre)
      as (post & Htrace & _).
    rewrite Hrun, Htrace. clear Hin Hrun Htrace.
    exists (Py.get (a_name activity) "Activity"),
      (Py.get (a_distance activity) 0 / 1000)%Q,
      (Py.get (a_moving_time activity) 0 / 60)%Q,
      (avg_speed_text activity),
      (Py.get (a_total_elevation_gain activity) 0%Q).
    eexists. split.
    + unfold occurs_in, stats_section, latest_summary. cbv zeta.
      exists (pre ++ ytd_stats (latest :: rest))%list, post.
      rewrite <- !app_assoc. reflexivity.
    + destruct (a_name activity), (a_distance activity),
        (a_moving_time activity), (a_total_elevation_gain activity);
        cbn [Py.get]; repeat split; reflexivity.
  - pose proof (draw_spec env (latest :: rest) activity c f pre) as Hspec.
    cbv zeta in Hspec. rewrite Hrun.
    intros [Hmap | (m & Hmap & Hpoly)]; rewrite Hmap in Hspec.
    + rewrite Hspec. reflexivity.
    + rewrite Hpoly in Hspec. rewrite Hspec. reflexivity.
Qed.

Lemma X23_latest_summary_defaults_witness :
  let run :=
    page_load (Sample.env_with Sample.noon_jan_2 [Sample.run_5k]
                               Sample.bare_run)
              (Some (Sample.config 100)) in
  (exists distance moving elev rows,
      occurs_in
        [ StSubheader "Latest Run Summary"; StSubheader "Activity";
          StColumns 4;
          StMetric "Distance (km)" (FixedPoint 2 (Some distance));
          StMetric "Moving time (min)" (FixedPoint 0 (Some moving));
          StMetric "Avg speed (km/h)" (Text "N/A");
          StMetric "Elevation (m)" (FixedPoint 0 (Some elev));
          StAltairChart rows ]
        (trace (snd run)) /\
      (distance == 0)%Q /\ (moving == 0)%Q /\ (elev == 0)%Q) /\
  fst run = Ret tt.
Proof.
  cbv zeta.
  destruct (X23_latest_summary_defaults
              (Sample.env_with Sample.noon_jan_2 [Sample.run_5k]
                               Sample.bare_run)
              (Some (Sample.config 100)) 11 "access-0" Sample.bare_run
              ltac:(do 3 right; left; reflexivity)
              ltac:(eexists; repeat split; reflexivity))
    as ((title & distance & moving & speed & elev & rows & Hblock & Htitle
         & Hdistance & Hmoving & Helev) & Hret).
  cbn [a_name a_distance a_moving_time a_total_elevation_gain
       Sample.bare_run] in Htitle, Hdistance, Hmoving, Helev.
  split; [ | apply Hret; left; reflexivity].
  exists distance, moving, elev, rows. subst title.
  assert (Hspeed : speed = Text "N/A").
  { destruct Hblock as (before & after & Htrace).
    assert (Hin : In (StMetric "Avg speed (km/h)" speed)
                     (trace (snd (page_load
                                    (Sample.env_with Sample.noon_jan_2
                                       [Sample.run_5k] Sample.bare_run)
                                    (Some (Sample.config 100)))))).
    { rewrite Htrace. apply in_or_app; right. do 5 right. left.
      reflexivity. }
    scan_trace Hin. injection Hin as <-. reflexivity. }
  subst speed. repeat split; assumption.
Defined.
